(** * Genome decoding of gene.jax ([gene/encoding.py])

    A shallow embedding of the two genome decoders and of the two genome
    size functions, with the properties of the decoding engine proved
    about them; then of the configuration helpers of [gene/utils.py]
    ([validate_json], [_get_env_sizes], [fix_config_file]) and of the
    pure parts of [evaluate_cgp.py] ([base_to_task], the selection of the
    best epochs of a run).

    Arrays of the numeric backend are lists; counts and offsets are
    natural numbers; Python exceptions are the [Err] results of a small
    error monad; the returned [dict] is an association list, since its
    insertion order is the order of the forward pass.  The configuration
    is a record: its keys are checked by [validate_json] before any
    decoding.

    The first part holds the definitions: the primitives, the size
    functions and the decoders as the source has them, then the offsets,
    entries and sample inputs that the statements use.  The second part
    holds the lemmas and the theorems. *)

From Stdlib Require Import String Ascii Bool ZArith Reals Lra.
From Stdlib Require Import DecimalString DecimalNat.
From Stdlib Require Import Permutation Sorted.
From Stdlib Require Import Arith Lia List.
Import ListNotations.

Set Implicit Arguments.
Open Scope string_scope.
Open Scope nat_scope.
Open Scope list_scope.

(* ================================================================== *)
(** * Part I: the model *)

(* ================================================================== *)
(** ** Exceptions and the error monad *)

Inductive error : Type :=
| AssertionError
| IndexError
| KeyError
| ValueError
| TypeError
| ZeroDivisionError.

Inductive result (T : Type) : Type :=
| Ok (v : T)
| Err (e : error).

Arguments Ok {T} v.
Arguments Err {T} e.

Definition bind {T U : Type} (m : result T) (k : T -> result U) : result U :=
  match m with
  | Ok v => k v
  | Err e => Err e
  end.

Notation "x <- m ;; k" := (bind m (fun x => k))
  (at level 61, m at next level, right associativity).

(** [assert c] of Python. *)
Definition assert (c : bool) : result unit :=
  if c then Ok tt else Err AssertionError.

(** A [for] loop whose body may raise: the state is threaded from left to
    right and the first exception stops the loop. *)
Fixpoint for_each {St X : Type} (body : St -> X -> result St)
         (items : list X) (s : St) : result St :=
  match items with
  | [] => Ok s
  | x :: rest => s' <- body s x ;; for_each body rest s'
  end.

(** [d[key]] on a table given as a partial function. *)
Definition getitem {V : Type} (table : string -> option V) (key : string)
  : result V :=
  match table key with
  | Some v => Ok v
  | None => Err KeyError
  end.

(* ================================================================== *)
(** ** Python and array primitives *)

(** The built-in [sum] over a list of integers. *)
Definition sum (xs : list nat) : nat := fold_left Nat.add xs 0.

Section Sequences.
Context {T : Type}.

(** [xs[lo:hi]] for non-negative bounds. *)
Definition slice (lo hi : nat) (xs : list T) : list T :=
  firstn (hi - lo) (skipn lo xs).

(** [xs[:-1]]. *)
Definition init (xs : list T) : list T := removelast xs.

(** [enumerate(xs)]. *)
Definition enumerate {U : Type} (xs : list U) : list (nat * U) :=
  combine (seq 0 (length xs)) xs.

(** [jnp.split(a, [k])]: the two pieces [a[:k]] and [a[k:]]. *)
Definition jnp_split_at (a : list T) (k : nat) : list T * list T :=
  (firstn k a, skipn k a).

(** [rows] consecutive windows of [cols] elements each. *)
Fixpoint windows (rows cols : nat) (a : list T) : list (list T) :=
  match rows with
  | 0 => []
  | S r => firstn cols a :: windows r cols (skipn cols a)
  end.

(** [jnp.array(jnp.split(a, n))] with an integer [n]: [n] equal
    sections, stacked as the rows of a matrix. *)
Definition jnp_split_sections (a : list T) (n : nat)
  : result (list (list T)) :=
  if n =? 0 then Err ZeroDivisionError
  else if length a mod n =? 0 then Ok (windows n (length a / n) a)
  else Err ValueError.

(** [lax.dynamic_slice(a, (start,), (size,))]: the slice must fit in the
    operand, and the start index is clamped so that it does. *)
Definition dynamic_slice (a : list T) (start size : nat)
  : result (list T) :=
  if length a <? size then Err TypeError
  else Ok (firstn size (skipn (Nat.min start (length a - size)) a)).

(** [jnp.reshape(a, newshape=(rows, cols))], row-major. *)
Definition jnp_reshape (a : list T) (rows cols : nat)
  : result (list (list T)) :=
  if length a =? rows * cols then Ok (windows rows cols a)
  else Err TypeError.

End Sequences.

(** [jnp.arange(start=0, stop=n)]. *)
Definition arange (n : nat) : list nat := seq 0 n.

(** [zip(layer_dims[:-1], layer_dims[1:])]: the layer transitions. *)
Definition transitions (layer_dims : list nat) : list (nat * nat) :=
  combine (init layer_dims) (skipn 1 layer_dims).

(** [str(i)] for a non-negative integer. *)
Definition str (i : nat) : string := NilEmpty.string_of_uint (Nat.to_uint i).

(** The f-string [f"Dense_{i}"]. *)
Definition Dense (i : nat) : string := String.append "Dense_" (str i).

(* ================================================================== *)
(** ** Dictionaries *)

Section Dict.
Context {V : Type}.

(** A [dict] with string keys, in insertion order. *)
Definition dict : Type := list (string * V).

(** [m[key] = v]: an existing key keeps its place, a new key goes last. *)
Fixpoint setitem (key : string) (v : V) (m : dict) : dict :=
  match m with
  | [] => [(key, v)]
  | (k, w) :: rest =>
      if String.eqb k key then (k, v) :: rest
      else (k, w) :: setitem key v rest
  end.

Definition keys (m : dict) : list string := map fst m.
End Dict.

Arguments dict V : clear implicits.

(* ================================================================== *)
(** ** Configuration *)

(** The configuration dictionary, with the keys that [validate_json]
    requires ([gene/utils.py]). *)
Record evo_config : Type := {
  strategy_name : string;
  n_generations : nat;
  population_size : nat;
  n_evaluations : nat
}.

Record net_config : Type := {
  layer_dimensions : list nat;
  architecture : string
}.

Record encoding_config : Type := {
  enc_d : nat;            (* config["encoding"]["d"] *)
  enc_distance : string;  (* config["encoding"]["distance"] *)
  enc_type : string       (* config["encoding"]["type"] *)
}.

Record task_config : Type := {
  environnment : string;
  maximize : bool;
  episode_length : nat
}.

Record config : Type := {
  seed : Z;
  evo : evo_config;
  net : net_config;
  encoding : encoding_config;
  task : task_config
}.

(* ================================================================== *)
(** ** Genome sizes *)

Definition gene_enc_genome_size (cfg : config) : result nat :=
  let d := enc_d (encoding cfg) in
  let l_dims := layer_dimensions (net cfg) in
  match l_dims with
  | [] => Err IndexError
  | l0 :: _ => Ok (l0 * d + sum (skipn 1 l_dims) * (d + 1))
  end.

Definition direct_enc_genome_size (cfg : config) : nat :=
  let layer_dims := layer_dimensions (net cfg) in
  sum (map (fun '(in_f, out_f) => in_f * out_f + out_f)
           (transitions layer_dims)).

(* ================================================================== *)
(** ** Decoders *)

Section Decoders.
(** The scalar type of the genome. *)
Variable A : Type.

(** The values stored in a layer's parameter dictionary. *)
Inductive tensor : Type :=
| Vector (v : list A)
| Matrix (m : list (list A)).

Definition layer_params : Type := dict tensor.
Definition model_params : Type := dict layer_params.

(** The metrics registered in [gene/distances.py], by name. *)
Variable Distances : string -> option (list A -> list A -> A).

(** Modelled from the spec: the table [Vectorized_distances] of
    [gene/distances.py], which is missing.  A vectorized distance
    evaluates the metric on the full Cartesian product of the source and
    target neurons, row = source and column = target, on the rows of the
    position table that the indices select. *)
Definition vectorized (dist : list A -> list A -> A)
           (positions : list (list A)) (src_idx target_idx : list nat)
  : list (list A) :=
  map (fun s =>
         map (fun t => dist (nth s positions []) (nth t positions []))
             target_idx)
      src_idx.

Definition Vectorized_distances (key : string)
  : option (list (list A) -> list nat -> list nat -> list (list A)) :=
  option_map vectorized (Distances key).

(** One iteration of the loop of [gene_decoding]. *)
Definition gene_layer (cfg : config) (genome_w genome_b : list A)
           (model_parameters : model_params) (it : nat * (nat * nat))
  : result model_params :=
  let layer_dims := layer_dimensions (net cfg) in
  let '(i, (layer_in, layer_out)) := it in
  genome_w_positions <- jnp_split_sections genome_w (sum layer_dims) ;;
  let layer_offset := sum (slice 0 i layer_dims) in
  let src_idx := map (Nat.add layer_offset) (arange layer_in) in
  let target_idx :=
    map (Nat.add (layer_offset + layer_in)) (arange layer_out) in
  distance <- getitem Vectorized_distances (enc_distance (encoding cfg)) ;;
  let weight_matrix := distance genome_w_positions src_idx target_idx in
  biases <- dynamic_slice genome_b
              (sum (slice 1 (i + 1) layer_dims)) layer_out ;;
  Ok (setitem (Dense i)
              [("kernel", Matrix weight_matrix); ("bias", Vector biases)]
              model_parameters).

Definition gene_decoding (genome : list A) (cfg : config)
  : result model_params :=
  size <- gene_enc_genome_size cfg ;;
  _ <- assert (length genome =? size) ;;
  let layer_dims := layer_dimensions (net cfg) in
  let d := enc_d (encoding cfg) in
  let '(genome_w, genome_b) := jnp_split_at genome (sum layer_dims * d) in
  for_each (gene_layer cfg genome_w genome_b)
           (enumerate (transitions layer_dims)) [].

(** One iteration of the loop of [direct_decoding]; the state is the
    running [offset] with the dictionary built so far. *)
Definition direct_layer (cfg : config) (genome_w genome_b : list A)
           (st : nat * model_params) (it : nat * (nat * nat))
  : result (nat * model_params) :=
  let layer_dims := layer_dimensions (net cfg) in
  let '(offset, model_parameters) := st in
  let '(i, (layer_in, layer_out)) := it in
  let section_length := layer_in * layer_out in
  weights <- dynamic_slice genome_w offset section_length ;;
  weight_matrix <- jnp_reshape weights layer_in layer_out ;;
  biases <- dynamic_slice genome_b
              (sum (slice 1 (i + 1) layer_dims)) layer_out ;;
  Ok (offset + section_length,
      setitem (Dense i)
              [("kernel", Matrix weight_matrix); ("bias", Vector biases)]
              model_parameters).

Definition direct_decoding (genome : list A) (cfg : config)
  : result model_params :=
  let layer_dims := layer_dimensions (net cfg) in
  let '(genome_w, genome_b) :=
    jnp_split_at genome
      (sum (map (fun i => nth i layer_dims 0 * nth (i + 1) layer_dims 0)
                (seq 0 (length layer_dims - 1)))) in
  st <- for_each (direct_layer cfg genome_w genome_b)
                 (enumerate (transitions layer_dims)) (0, []) ;;
  Ok (snd st).

(** The tables [Encoding_size_function] and [Encoding_function]. *)
Definition Encoding_size_function (key : string)
  : option (config -> result nat) :=
  if String.eqb key "direct"
  then Some (fun cfg => Ok (direct_enc_genome_size cfg))
  else if String.eqb key "gene" then Some gene_enc_genome_size
  else None.

Definition Encoding_function (key : string)
  : option (list A -> config -> result model_params) :=
  if String.eqb key "direct" then Some direct_decoding
  else if String.eqb key "gene" then Some gene_decoding
  else None.

(** The parameters that [genome_to_model] returns: the decoder is
    looked up by [config["encoding"]["type"]]. *)
Definition genome_to_model (genome : list A) (cfg : config)
  : result model_params :=
  decoder <- getitem Encoding_function (enc_type (encoding cfg)) ;;
  decoder genome cfg.

End Decoders.

Arguments Vector {A} v.
Arguments Matrix {A} m.

(** A configuration with the given network and encoding entries. *)
Definition mk_config (dims : list nat) (d : nat) (distance type : string)
  : config :=
  {| seed := 0%Z;
     evo := {| strategy_name := "xNES"; n_generations := 0;
               population_size := 0; n_evaluations := 0 |};
     net := {| layer_dimensions := dims; architecture := "" |};
     encoding := {| enc_d := d; enc_distance := distance; enc_type := type |};
     task := {| environnment := ""; maximize := true; episode_length := 0 |} |}.

(* ================================================================== *)
(** ** Offsets of a topology *)

(** Number of weight genes before transition [k] in the direct layout. *)
Definition weight_offset (dims : list nat) (k : nat) : nat :=
  sum (map (fun i => nth i dims 0 * nth (i + 1) dims 0) (seq 0 k)).

(** [bias_offset(k) = dims[1] + ... + dims[k]]. *)
Definition bias_offset (dims : list nat) (k : nat) : nat :=
  sum (map (fun j => nth j dims 0) (seq 1 k)).

(** [layer_offset(k) = dims[0] + ... + dims[k-1]]. *)
Definition layer_offset (dims : list nat) (k : nat) : nat :=
  sum (map (fun j => nth j dims 0) (seq 0 k)).

(** A topology has at least two layers, all of them non-empty. *)
Definition valid_topology (dims : list nat) : Prop :=
  2 <= length dims /\ Forall (fun n => 0 < n) dims.

(* ================================================================== *)
(** ** Entries of the decoded mapping *)

Section Entries.
Variable A : Type.

(** Entry [i] of the result, read from the weights block [gw] and the
    biases block [gb]. *)
Definition direct_kernel (dims : list nat) (gw : list A) (i : nat)
  : list (list A) :=
  windows (nth i dims 0) (nth (S i) dims 0)
          (firstn (nth i dims 0 * nth (S i) dims 0)
                  (skipn (weight_offset dims i) gw)).

Definition bias_at (dims : list nat) (gb : list A) (i : nat) : list A :=
  firstn (nth (S i) dims 0) (skipn (bias_offset dims i) gb).

Definition direct_entry (dims : list nat) (gw gb : list A) (i : nat)
  : string * layer_params A :=
  (Dense i, [("kernel", Matrix (direct_kernel dims gw i));
             ("bias", Vector (bias_at dims gb i))]).

Definition gene_kernel (dims : list nat) (dist : list A -> list A -> A)
           (d : nat) (gw : list A) (i : nat) : list (list A) :=
  vectorized dist (windows (sum dims) d gw)
    (map (Nat.add (layer_offset dims i)) (arange (nth i dims 0)))
    (map (Nat.add (layer_offset dims i + nth i dims 0))
         (arange (nth (S i) dims 0))).

Definition gene_entry (dims : list nat) (dist : list A -> list A -> A)
           (d : nat) (gw gb : list A) (i : nat) : string * layer_params A :=
  (Dense i, [("kernel", Matrix (gene_kernel dims dist d gw i));
             ("bias", Vector (bias_at dims gb i))]).

(** A matrix given by its rows has shape [(rows, cols)]. *)
Definition has_shape (w : list (list A)) (rows cols : nat) : Prop :=
  length w = rows /\ Forall (fun r => length r = cols) w.

(** One weight matrix and one bias vector per transition, of the shapes
    that the topology prescribes. *)
Definition layers_match (dims : list nat)
           (layers : list (list (list A) * list A)) : Prop :=
  length layers = length dims - 1 /\
  forall i w b, nth_error layers i = Some (w, b) ->
                has_shape w (nth i dims 0) (nth (S i) dims 0) /\
                length b = nth (S i) dims 0.

(** All weights, row-major per transition and in transition order, then
    all biases, per transition and in order. *)
Definition encode_direct (layers : list (list (list A) * list A)) : list A :=
  concat (map (fun l => concat (fst l)) layers) ++ concat (map snd layers).

(** The parameter dictionary that holds exactly the chosen values. *)
Definition params_of (layers : list (list (list A) * list A))
  : model_params A :=
  map (fun '(i, (w, b)) =>
         (Dense i, [("kernel", Matrix w); ("bias", Vector b)]))
      (enumerate layers).

(** The decoded mapping has one entry per transition, in order, of the
    shapes of the topology. *)
Definition well_shaped (dims : list nat) (m : model_params A) : Prop :=
  length m = length dims - 1 /\
  forall i, i < length dims - 1 ->
            exists w b,
              nth_error m i =
              Some (Dense i, [("kernel", Matrix w); ("bias", Vector b)])
              /\ has_shape w (nth i dims 0) (nth (S i) dims 0)
              /\ length b = nth (S i) dims 0.

(** An entry is a dictionary with the two fields ["kernel"], a matrix,
    and ["bias"], a vector, in this order. *)
Definition entry_form (e : layer_params A) : Prop :=
  exists w b, e = [("kernel", Matrix w); ("bias", Vector b)].

(** The mapping holds the entries of the transitions [0 .. n-1], in
    insertion order. *)
Definition dense_dict (n : nat) (m : model_params A) : Prop :=
  keys m = map Dense (seq 0 n) /\ Forall (fun kv => entry_form (snd kv)) m.

End Entries.

(* ================================================================== *)
(** ** Sample inputs *)

(** A configuration, genome and metric table on which both decoders run:
    topology [2; 2], [d = 1], six genes. *)
Definition sample_cfg : config := mk_config [2; 2] 1 "L2" "gene".
Definition sample_genome : list nat := [0; 5; 10; 15; 1; 2].
Definition sample_metric (a b : list nat) : nat :=
  sum (map (fun '(x, y) => (x - y) + (y - x)) (combine a b)).
Definition sample_table (key : string)
  : option (list nat -> list nat -> nat) :=
  if String.eqb key "L2" then Some sample_metric else None.

(* ================================================================== *)
(** ** The L2 metric over the reals *)

(** Modelled from the spec: the metrics of [gene/distances.py], which is
    missing.  L2 is the Euclidean norm of the difference of the two
    position vectors; pL2 has the same formula on each pair. *)
Definition dot (u v : list R) : R :=
  fold_right Rplus 0%R (map (fun '(x, y) => (x * y)%R) (combine u v)).

Definition L2_dist (a b : list R) : R :=
  let diff := map (fun '(x, y) => (x - y)%R) (combine a b) in
  sqrt (dot diff diff).

Definition Distances_R (key : string) : option (list R -> list R -> R) :=
  if String.eqb key "L2" then Some L2_dist
  else if String.eqb key "pL2" then Some L2_dist
  else None.

(* ================================================================== *)
(** ** Environments and configuration fixing ([gene/utils.py]) *)

(** [d[key]] on a dictionary, [None] when the key is absent;
    [key in d.keys()] is [contains]. *)
Fixpoint lookup {V : Type} (key : string) (m : dict V) : option V :=
  match m with
  | [] => None
  | (k, w) :: rest => if String.eqb k key then Some w else lookup key rest
  end.

Definition contains {V : Type} (key : string) (m : dict V) : bool :=
  match lookup key m with
  | Some _ => true
  | None => false
  end.

Record env_sizes : Type := {
  observation_space : nat;
  action_space : nat
}.

Definition brax_envs : dict env_sizes :=
  [("humanoid", {| observation_space := 240; action_space := 8 |});
   ("walker2d", {| observation_space := 17; action_space := 6 |});
   ("hopper", {| observation_space := 11; action_space := 3 |});
   ("ant", {| observation_space := 87 - 20; action_space := 8 |});
   ("halfcheetah", {| observation_space := 18; action_space := 6 |});
   ("inverted_double_pendulum",
    {| observation_space := 11; action_space := 1 |});
   ("swimmer", {| observation_space := 12; action_space := 2 |})].

Definition _get_env_sizes (env_name : string) : result env_sizes :=
  if negb (contains env_name brax_envs) then Err ValueError
  else match lookup env_name brax_envs with
       | Some sizes => Ok sizes
       | None => Err KeyError
       end.

(** [l[0] = v] and [l[-1] = v] on a list. *)
Definition set_first {T : Type} (v : T) (l : list T) : result (list T) :=
  match l with
  | [] => Err IndexError
  | _ :: rest => Ok (v :: rest)
  end.

Definition set_last {T : Type} (v : T) (l : list T) : result (list T) :=
  match l with
  | [] => Err IndexError
  | _ :: _ => Ok (removelast l ++ [v])
  end.

(** Assignments to entries of a configuration. *)
Definition with_layer_dimensions (cfg : config) (dims : list nat) : config :=
  {| seed := seed cfg;
     evo := evo cfg;
     net := {| layer_dimensions := dims;
               architecture := architecture (net cfg) |};
     encoding := encoding cfg;
     task := task cfg |}.

Definition with_environnment (cfg : config) (name : string) : config :=
  {| seed := seed cfg;
     evo := evo cfg;
     net := net cfg;
     encoding := encoding cfg;
     task := {| environnment := name;
                maximize := maximize (task cfg);
                episode_length := episode_length (task cfg) |} |}.

Definition with_n_generations (cfg : config) (n : nat) : config :=
  {| seed := seed cfg;
     evo := {| strategy_name := strategy_name (evo cfg);
               n_generations := n;
               population_size := population_size (evo cfg);
               n_evaluations := n_evaluations (evo cfg) |};
     net := net cfg;
     encoding := encoding cfg;
     task := task cfg |}.

(** [fix_config_file]: the copy of the configuration whose first and
    last layer sizes are those of the environment.  The right-hand side
    of each assignment is evaluated before its target. *)
Definition fix_config_file (cfg : config) (env_name : option string)
  : result config :=
  let env_name :=
    match env_name with
    | Some name => name
    | None => environnment (task cfg)
    end in
  let new_config := cfg in
  sizes <- _get_env_sizes env_name ;;
  dims <- set_first (observation_space sizes)
                    (layer_dimensions (net new_config)) ;;
  let new_config := with_layer_dimensions new_config dims in
  sizes <- _get_env_sizes env_name ;;
  dims <- set_last (action_space sizes)
                   (layer_dimensions (net new_config)) ;;
  let new_config := with_layer_dimensions new_config dims in
  Ok new_config.

(** [base_to_task] of [evaluate_cgp.py]; [n_generations] defaults to
    1000 there. *)
Definition base_to_task (base_config : config) (target_task : string)
           (n_generations : nat) : result config :=
  copy_base_config <- fix_config_file base_config (Some target_task) ;;
  let copy_base_config := with_environnment copy_base_config target_task in
  let copy_base_config :=
    with_n_generations copy_base_config n_generations in
  Ok copy_base_config.

(* ================================================================== *)
(** ** Validation of a configuration file ([gene/utils.py]) *)

(** What [json.load] returns. *)
#[warnings="-register-all"]
Inductive json : Type :=
| JNull
| JBool (b : bool)
| JInt (n : Z)
| JFloat (literal : string)
| JStr (s : string)
| JList (items : list json)
| JDict (entries : list (string * json)).

Inductive level : Type := base_level | nested_level.

(** The exceptions of [validate_json]: its own [ConfigFileIncomplete],
    with the key and the level of its message, and the [AttributeError]
    of [.keys()] on a value that is not a dictionary. *)
Inductive validation_error : Type :=
| ConfigFileIncomplete (key : string) (at_level : level)
| AttributeError.

Inductive outcome (T : Type) : Type :=
| Returned (v : T)
| Raised (e : validation_error).

Arguments Returned {T} v.
Arguments Raised {T} e.

(** The template: for each required key, [None] or the required keys
    of the nested dictionary, in the order of the source. *)
Definition base_template : dict (option (list string)) :=
  [("seed", None);
   ("evo", Some ["strategy_name"; "n_generations"; "population_size";
                 "n_evaluations"]);
   ("net", Some ["layer_dimensions"; "architecture"]);
   ("encoding", Some ["d"; "distance"; "type"]);
   ("task", Some ["environnment"; "maximize"; "episode_length"])].

(** The inner loop, on the value [config[required_key]]. *)
Fixpoint validate_nested (value : json) (required : list string)
  : outcome unit :=
  match required with
  | [] => Returned tt
  | required_key_2 :: rest =>
      match value with
      | JDict entries =>
          if negb (contains required_key_2 entries)
          then Raised (ConfigFileIncomplete required_key_2 nested_level)
          else validate_nested value rest
      | _ => Raised AttributeError
      end
  end.

(** The outer loop, on the entries of the configuration. *)
Fixpoint validate_base (config : dict json)
         (template : dict (option (list string))) : outcome unit :=
  match template with
  | [] => Returned tt
  | (required_key, expected) :: rest =>
      match lookup required_key config with
      | None => Raised (ConfigFileIncomplete required_key base_level)
      | Some value =>
          match expected with
          | Some nested =>
              match validate_nested value nested with
              | Returned _ => validate_base config rest
              | Raised e => Raised e
              end
          | None => validate_base config rest
          end
      end
  end.

Definition validate_json (config : json) : outcome unit :=
  match config with
  | JDict entries => validate_base entries base_template
  | _ => Raised AttributeError
  end.

(** [config[k1][k2]], as the size functions and the decoders read the
    configuration. *)
Definition subscript2 (config : json) (k1 k2 : string) : result json :=
  match config with
  | JDict entries =>
      match lookup k1 entries with
      | None => Err KeyError
      | Some (JDict nested) =>
          match lookup k2 nested with
          | None => Err KeyError
          | Some v => Ok v
          end
      | Some _ => Err TypeError
      end
  | _ => Err TypeError
  end.

(* ================================================================== *)
(** ** The best epochs of a run ([evaluate_cgp.py]) *)

Section BestEpochs.
(** The values of the metrics, with their comparison [<], their
    addition and the integer 0 that [sum] starts from. *)
Variable V : Type.
Variable lt : V -> V -> bool.
Variable plus : V -> V -> V.
Variable zero : V.

(** A row of the history of a run: the reference metric, which may be
    [None], and the three network properties. *)
Record history_row : Type := {
  reference_metric : option V;
  f_expressivity : V;
  f_input_restoration : V;
  f_weight_distribution : V
}.

(** An indexed row whose reference metric is not [None]. *)
Record epoch_row : Type := {
  epoch_i : nat;            (* "i" *)
  epoch_metric : V;
  epoch_row_of : history_row
}.

(** [{"i": i, **e} for i, e in enumerate(metric_history)], filtered on
    [e[reference_metric] is not None]. *)
Definition filtered_metrics (metric_history : list history_row)
  : list epoch_row :=
  flat_map (fun '(i, e) =>
              match reference_metric e with
              | Some v => [{| epoch_i := i; epoch_metric := v;
                              epoch_row_of := e |}]
              | None => []
              end)
           (enumerate metric_history).

(** [sorted(l, key=key)], as a stable insertion sort by [<] on the keys:
    an element goes after the elements that are not greater than it.
    This is the list Python returns when [<] is a strict weak order on
    the keys that occur ([comparable_metrics] below).  On incomparable
    keys, as with a NaN among ordered floats, Python's merge sort and
    this one may order the list differently; both return a permutation
    of it, and only that is used where comparability is not assumed. *)
Fixpoint insort {X : Type} (key : X -> V) (x : X) (l : list X) : list X :=
  match l with
  | [] => [x]
  | y :: rest =>
      if lt (key x) (key y) then x :: y :: rest
      else y :: insort key x rest
  end.

Definition sorted {X : Type} (key : X -> V) (l : list X) : list X :=
  fold_left (fun acc x => insort key x acc) l [].

(** [sum] over a list of values. *)
Definition sum_values (l : list V) : V := fold_left plus l zero.

Definition f_net_prop_total (e : epoch_row) : V :=
  sum_values [f_expressivity (epoch_row_of e);
              f_input_restoration (epoch_row_of e);
              f_weight_distribution (epoch_row_of e)].

(** [get_k_best_epoch_metrics], on the history that the run returns:
    each entry with its ["f_net_prop_total"]. *)
Definition get_k_best_epoch_metrics (metric_history : list history_row)
           (k : nat) : list (epoch_row * V) :=
  let sorted_metrics := sorted epoch_metric (filtered_metrics metric_history) in
  let aggregated_metrics :=
    map (fun entry_d => (entry_d, f_net_prop_total entry_d))
        (rev sorted_metrics) in
  firstn k aggregated_metrics.

Definition get_k_best_genome_ids (metric_history : list history_row)
           (k : nat) : list nat :=
  let metrics := get_k_best_epoch_metrics metric_history k in
  map (fun d => epoch_i (fst d)) metrics.

End BestEpochs.

(** The environment that [fix_config_file] uses. *)
Definition chosen_env (cfg : config) (env_name : option string) : string :=
  match env_name with
  | Some name => name
  | None => environnment (task cfg)
  end.

(** A section [name] of a configuration: a nested dictionary that holds
    the given keys. *)
Definition has_section (config : dict json) (name : string)
           (required : list string) : Prop :=
  exists nested, lookup name config = Some (JDict nested)
                 /\ Forall (fun k => contains k nested = true) required.

(** [config[k1][k2] = v]. *)
Definition set_subscript2 (config : dict json) (k1 k2 : string) (v : json)
  : result (dict json) :=
  match lookup k1 config with
  | None => Err KeyError
  | Some (JDict nested) => Ok (setitem k1 (JDict (setitem k2 v nested)) config)
  | Some _ => Err TypeError
  end.

(** A row has a reference metric. *)
Definition has_metric {V : Type} (e : history_row V) : bool :=
  match reference_metric e with
  | Some _ => true
  | None => false
  end.

(* ================================================================== *)
(** ** More sample inputs *)

(** A configuration file as [json.load] returns it. *)
Definition sample_json_entries : dict json :=
  [("seed", JInt 0);
   ("evo", JDict [("strategy_name", JStr "xNES");
                  ("n_generations", JInt 100);
                  ("population_size", JInt 256);
                  ("n_evaluations", JInt 1)]);
   ("net", JDict [("layer_dimensions", JList [JInt 2; JInt 2]);
                  ("architecture", JStr "tanh_linear")]);
   ("encoding", JDict [("d", JInt 1); ("distance", JStr "L2");
                       ("type", JStr "gene")]);
   ("task", JDict [("environnment", JStr "hopper");
                   ("maximize", JBool true);
                   ("episode_length", JInt 1000)])].

(** The same file without its ["net"] section. *)
Definition sample_json_no_net : dict json :=
  [("seed", JInt 0);
   ("evo", JDict [("strategy_name", JStr "xNES");
                  ("n_generations", JInt 100);
                  ("population_size", JInt 256);
                  ("n_evaluations", JInt 1)]);
   ("encoding", JDict [("d", JInt 1); ("distance", JStr "L2");
                       ("type", JStr "gene")]);
   ("task", JDict [("environnment", JStr "hopper");
                   ("maximize", JBool true);
                   ("episode_length", JInt 1000)])].

(** A policy network with placeholder input and output sizes. *)
Definition sample_policy_cfg : config :=
  mk_config [1; 8; 8; 1] 3 "pL2" "direct".

(** A history of four epochs, the second one without reference metric;
    the metric values are integers here. *)
Definition sample_history : list (history_row Z) :=
  [{| reference_metric := Some 3%Z; f_expressivity := 1%Z;
      f_input_restoration := 1%Z; f_weight_distribution := 1%Z |};
   {| reference_metric := None; f_expressivity := 2%Z;
      f_input_restoration := 2%Z; f_weight_distribution := 2%Z |};
   {| reference_metric := Some 7%Z; f_expressivity := 3%Z;
      f_input_restoration := 3%Z; f_weight_distribution := 3%Z |};
   {| reference_metric := Some 5%Z; f_expressivity := 4%Z;
      f_input_restoration := 4%Z; f_weight_distribution := 4%Z |}].

(** A value is logged when some row of the history has it as its
    reference metric. *)
Definition logged {V : Type} (h : list (history_row V)) (v : V) : Prop :=
  exists row, In row h /\ reference_metric row = Some v.

(** The logged reference metrics are comparable: an incomparable value,
    as a NaN is, would sit between two ordered ones. *)
Definition comparable_metrics {V : Type} (lt : V -> V -> bool)
           (h : list (history_row V)) : Prop :=
  forall x y z, logged h x -> logged h y -> logged h z ->
                lt x z = true -> lt x y = true \/ lt y z = true.

(** Ascending by reference metric, epochs of equal metric in the order
    of the history: what a stable sort of the filtered rows gives. *)
Definition ascending_stable {V : Type} (lt : V -> V -> bool)
           (a b : epoch_row V) : Prop :=
  lt (epoch_metric b) (epoch_metric a) = false
  /\ (lt (epoch_metric a) (epoch_metric b) = false -> epoch_i a < epoch_i b).

(** Floats with a NaN, as far as [<] goes: [None] stands for the NaN,
    with which every comparison is false. *)
Definition lt_nan (x y : option Z) : bool :=
  match x, y with
  | Some a, Some b => Z.ltb a b
  | _, _ => false
  end.

(** A history whose reference metrics are 3, NaN and 1. *)
Definition sample_history_nan : list (history_row (option Z)) :=
  map (fun m => {| reference_metric := Some m; f_expressivity := Some 0%Z;
                   f_input_restoration := Some 0%Z;
                   f_weight_distribution := Some 0%Z |})
      [Some 3%Z; None; Some 1%Z].

(* ================================================================== *)
(** * Part II: properties *)

(* ================================================================== *)
(** ** Basic facts on the primitives *)

Lemma fold_add_acc (xs : list nat) (a : nat) :
  fold_left Nat.add xs a = a + fold_left Nat.add xs 0.
Proof.
  revert a; induction xs as [|x xs IH]; intros a; simpl.
  - lia.
  - rewrite (IH (a + x)), (IH x). lia.
Qed.

Lemma sum_nil : sum [] = 0.
Proof. reflexivity. Qed.

Lemma sum_cons (x : nat) (xs : list nat) : sum (x :: xs) = x + sum xs.
Proof. unfold sum; simpl. apply fold_add_acc. Qed.

Lemma sum_app (xs ys : list nat) : sum (xs ++ ys) = sum xs + sum ys.
Proof.
  induction xs as [|x xs IH]; simpl.
  - reflexivity.
  - rewrite !sum_cons, IH. lia.
Qed.

Lemma firstn_snoc {T : Type} (xs : list T) (k : nat) (x : T) :
  nth_error xs k = Some x -> firstn (S k) xs = firstn k xs ++ [x].
Proof.
  revert k; induction xs as [|y ys IH]; intros [|k] H; simpl in *;
    try discriminate.
  - now inversion H.
  - f_equal. now apply IH.
Qed.

Lemma sum_firstn_le (xs : list nat) (k : nat) : sum (firstn k xs) <= sum xs.
Proof.
  rewrite <- (firstn_skipn k xs) at 2. rewrite sum_app. lia.
Qed.

Lemma sum_firstn_S (xs : list nat) (k : nat) :
  k < length xs -> sum (firstn (S k) xs) = sum (firstn k xs) + nth k xs 0.
Proof.
  intros Hk.
  rewrite (firstn_snoc xs k (x := nth k xs 0)).
  - rewrite sum_app, sum_cons, sum_nil. lia.
  - now apply nth_error_nth'.
Qed.

Lemma sum_map_seq_nth (xs : list nat) :
  sum (map (fun i => nth i xs 0) (seq 0 (length xs))) = sum xs.
Proof.
  induction xs as [|x xs IH]; [reflexivity|].
  simpl length. rewrite <- cons_seq, <- seq_shift, map_cons, map_map.
  rewrite !sum_cons. simpl. now rewrite IH.
Qed.

Lemma slice_from_0 {T : Type} (k : nat) (xs : list T) :
  slice 0 k xs = firstn k xs.
Proof. unfold slice. now rewrite Nat.sub_0_r. Qed.

Lemma slice_from_1 {T : Type} (k : nat) (xs : list T) :
  slice 1 (k + 1) xs = firstn k (skipn 1 xs).
Proof. unfold slice. now replace (k + 1 - 1) with k by lia. Qed.

Lemma nth_skipn_1 (xs : list nat) (k : nat) :
  nth k (skipn 1 xs) 0 = nth (S k) xs 0.
Proof. destruct xs; simpl; [now destruct k | reflexivity]. Qed.

Lemma length_skipn_1 {T : Type} (xs : list T) :
  length (skipn 1 xs) = length xs - 1.
Proof. destruct xs; simpl; lia. Qed.

(** The transitions by index: transition [i] goes from layer [i] to
    layer [i + 1]. *)
Lemma transitions_cons2 (a b : nat) (r : list nat) :
  transitions (a :: b :: r) = (a, b) :: transitions (b :: r).
Proof. reflexivity. Qed.

Lemma transitions_seq (dims : list nat) :
  transitions dims =
  map (fun i => (nth i dims 0, nth (S i) dims 0)) (seq 0 (length dims - 1)).
Proof.
  induction dims as [|a [|b r] IH]; try reflexivity.
  rewrite transitions_cons2, IH.
  replace (length (a :: b :: r) - 1) with (S (length (b :: r) - 1))
    by (simpl; lia).
  rewrite <- cons_seq, <- seq_shift, map_cons, map_map. reflexivity.
Qed.

Lemma length_transitions (dims : list nat) :
  length (transitions dims) = length dims - 1.
Proof. now rewrite transitions_seq, length_map, length_seq. Qed.

Lemma combine_seq_map {T U : Type} (g : nat -> U) (n k : nat) :
  combine (seq k n) (map g (seq k n)) = map (fun i => (i, g i)) (seq k n).
Proof.
  revert k; induction n as [|n IH]; intros k; simpl; [reflexivity|].
  now rewrite IH.
Qed.

Lemma enumerate_transitions (dims : list nat) :
  enumerate (transitions dims) =
  map (fun i => (i, (nth i dims 0, nth (S i) dims 0)))
      (seq 0 (length dims - 1)).
Proof.
  unfold enumerate. rewrite length_transitions, transitions_seq.
  apply (combine_seq_map (T := nat)).
Qed.

(** Loops over [0 .. n-1]: a closed form of the state, and an invariant. *)
Lemma for_each_seq_closed {St X : Type} (body : St -> X -> result St)
      (g : nat -> X) (st : nat -> St) (n : nat) :
  (forall k, k < n -> body (st k) (g k) = Ok (st (S k))) ->
  for_each body (map g (seq 0 n)) (st 0) = Ok (st n).
Proof.
  intros H.
  enough (G : forall m k0, k0 + m = n ->
             for_each body (map g (seq k0 m)) (st k0) = Ok (st n))
    by (apply G; reflexivity).
  induction m as [|m IH]; intros k0 E; simpl.
  - now replace k0 with n by lia.
  - rewrite H by lia. simpl. apply IH. lia.
Qed.

Lemma for_each_seq_inv {St X : Type} (body : St -> X -> result St)
      (g : nat -> X) (Inv : nat -> St -> Prop) (n : nat) :
  (forall k s s', k < n -> Inv k s -> body s (g k) = Ok s' -> Inv (S k) s') ->
  forall s s', Inv 0 s -> for_each body (map g (seq 0 n)) s = Ok s' ->
               Inv n s'.
Proof.
  intros H.
  enough (G : forall m k0 s s', k0 + m = n -> Inv k0 s ->
             for_each body (map g (seq k0 m)) s = Ok s' -> Inv n s')
    by (intros s s'; apply G; reflexivity).
  induction m as [|m IH]; intros k0 s s' E I R; simpl in R.
  - injection R as <-. now replace n with k0 by lia.
  - destruct (body s (g k0)) as [s1|e] eqn:B; simpl in R; [|discriminate].
    apply (IH (S k0) s1 s'); [lia| |exact R].
    apply (H k0 s s1); [lia|exact I|exact B].
Qed.

(** Keys of the decoded dictionary. *)
Lemma str_inj (i j : nat) : str i = str j -> i = j.
Proof.
  unfold str; intros E.
  apply Unsigned.to_uint_inj.
  assert (U : Some (Nat.to_uint i) = Some (Nat.to_uint j))
    by (rewrite <- !NilEmpty.usu; now rewrite E).
  now inversion U.
Qed.

Lemma Dense_inj (i j : nat) : Dense i = Dense j -> i = j.
Proof.
  unfold Dense; simpl; intros E. apply str_inj. now inversion E.
Qed.

Lemma setitem_fresh {V : Type} (key : string) (v : V) (m : dict V) :
  ~ In key (keys m) -> setitem key v m = m ++ [(key, v)].
Proof.
  induction m as [|[k w] m IH]; simpl; intros NI; [reflexivity|].
  destruct (String.eqb_spec k key) as [E|_].
  - exfalso; apply NI; now left.
  - f_equal. apply IH. intros I; apply NI; now right.
Qed.

Lemma Dense_fresh (k : nat) : ~ In (Dense k) (map Dense (seq 0 k)).
Proof.
  intros I. apply in_map_iff in I as (j & E & Hj).
  apply Dense_inj in E; subst j. apply in_seq in Hj. lia.
Qed.

Lemma sum_map_add {X : Type} (f g : X -> nat) (l : list X) :
  sum (map (fun x => f x + g x) l) = sum (map f l) + sum (map g l).
Proof.
  induction l as [|x l IH]; [reflexivity|].
  simpl map. rewrite !sum_cons, IH. lia.
Qed.

Lemma sum_firstn_nth (xs : list nat) (k : nat) :
  sum (firstn k xs) = sum (map (fun j => nth j xs 0) (seq 0 k)).
Proof.
  induction k as [|k IH]; [reflexivity|].
  rewrite seq_S, map_app, sum_app, <- IH. simpl map.
  rewrite sum_cons, sum_nil, Nat.add_0_r.
  destruct (Nat.lt_ge_cases k (length xs)) as [Hk|Hk].
  - now apply sum_firstn_S.
  - rewrite (nth_overflow xs 0 Hk), !firstn_all2 by lia. lia.
Qed.

Lemma dynamic_slice_fits {T : Type} (a : list T) (start size : nat) :
  start + size <= length a ->
  dynamic_slice a start size = Ok (firstn size (skipn start a)).
Proof.
  intros H. unfold dynamic_slice.
  destruct (Nat.ltb_spec (length a) size) as [L|_]; [lia|].
  now rewrite Nat.min_l by lia.
Qed.

Lemma length_slice_fits {T : Type} (a : list T) (start size : nat) :
  start + size <= length a -> length (firstn size (skipn start a)) = size.
Proof. intros H. rewrite length_firstn, length_skipn. lia. Qed.

Lemma jnp_reshape_fits {T : Type} (a : list T) (rows cols : nat) :
  length a = rows * cols -> jnp_reshape a rows cols = Ok (windows rows cols a).
Proof. intros H. unfold jnp_reshape. now rewrite H, Nat.eqb_refl. Qed.

(* ================================================================== *)
(** ** Facts on the offsets *)

Lemma weight_offset_S (dims : list nat) (k : nat) :
  weight_offset dims (S k) =
  weight_offset dims k + nth k dims 0 * nth (S k) dims 0.
Proof.
  unfold weight_offset. rewrite seq_S, map_app, sum_app. simpl map.
  rewrite sum_cons, sum_nil, Nat.add_1_r. simpl. lia.
Qed.

Lemma bias_offset_S (dims : list nat) (k : nat) :
  bias_offset dims (S k) = bias_offset dims k + nth (S k) dims 0.
Proof.
  unfold bias_offset. rewrite seq_S, map_app, sum_app. simpl map.
  rewrite sum_cons, sum_nil. simpl. lia.
Qed.

Lemma layer_offset_S (dims : list nat) (k : nat) :
  layer_offset dims (S k) = layer_offset dims k + nth k dims 0.
Proof.
  unfold layer_offset. rewrite seq_S, map_app, sum_app. simpl map.
  rewrite sum_cons, sum_nil. simpl. lia.
Qed.

Lemma weight_offset_mono (dims : list nat) (k n : nat) :
  k <= n -> weight_offset dims k <= weight_offset dims n.
Proof.
  induction 1 as [|n _ IH]; [lia|]. rewrite weight_offset_S. lia.
Qed.

Lemma bias_offset_mono (dims : list nat) (k n : nat) :
  k <= n -> bias_offset dims k <= bias_offset dims n.
Proof.
  induction 1 as [|n _ IH]; [lia|]. rewrite bias_offset_S. lia.
Qed.

Lemma layer_offset_mono (dims : list nat) (k n : nat) :
  k <= n -> layer_offset dims k <= layer_offset dims n.
Proof.
  induction 1 as [|n _ IH]; [lia|]. rewrite layer_offset_S. lia.
Qed.

(** The offsets that the code computes are these. *)
Lemma code_bias_offset (dims : list nat) (i : nat) :
  sum (slice 1 (i + 1) dims) = bias_offset dims i.
Proof.
  rewrite slice_from_1, sum_firstn_nth. unfold bias_offset.
  rewrite <- seq_shift, map_map. f_equal.
  apply map_ext; intros j. apply nth_skipn_1.
Qed.

Lemma code_layer_offset (dims : list nat) (i : nat) :
  sum (slice 0 i dims) = layer_offset dims i.
Proof. rewrite slice_from_0. apply sum_firstn_nth. Qed.

Lemma layer_offset_all (dims : list nat) :
  layer_offset dims (length dims) = sum dims.
Proof. apply sum_map_seq_nth. Qed.

Lemma bias_offset_all (dims : list nat) :
  bias_offset dims (length dims - 1) = sum (skipn 1 dims).
Proof.
  rewrite <- code_bias_offset, slice_from_1.
  rewrite firstn_all2; [reflexivity|]. rewrite length_skipn_1. lia.
Qed.

Lemma sum_dims_split (dims : list nat) :
  sum dims = nth 0 dims 0 + sum (skipn 1 dims).
Proof. destruct dims as [|a r]; [reflexivity|]. simpl. apply sum_cons. Qed.

Lemma direct_size_split (cfg : config) :
  let dims := layer_dimensions (net cfg) in
  direct_enc_genome_size cfg =
  weight_offset dims (length dims - 1) + bias_offset dims (length dims - 1).
Proof.
  intros dims. unfold direct_enc_genome_size. fold dims.
  rewrite transitions_seq, map_map.
  rewrite (sum_map_add (fun i => nth i dims 0 * nth (S i) dims 0)
                       (fun i => nth (S i) dims 0)).
  f_equal.
  - unfold weight_offset. f_equal. apply map_ext; intros i.
    now rewrite Nat.add_1_r.
  - unfold bias_offset. now rewrite <- seq_shift, map_map.
Qed.

(* ================================================================== *)
(** ** Closed form of the direct decoder *)

Section DirectClosedForm.
Variable A : Type.

Lemma keys_map_entry (entry : nat -> string * layer_params A)
      (l : list nat) :
  (forall i, fst (entry i) = Dense i) ->
  keys (map entry l) = map Dense l.
Proof.
  intros H. unfold keys. rewrite map_map. now apply map_ext.
Qed.

Lemma setitem_next (entry : nat -> string * layer_params A) (k : nat)
      (v : layer_params A) :
  (forall i, fst (entry i) = Dense i) ->
  entry k = (Dense k, v) ->
  setitem (Dense k) v (map entry (seq 0 k)) = map entry (seq 0 (S k)).
Proof.
  intros Hk Hv. rewrite setitem_fresh.
  - rewrite seq_S, map_app. simpl. now rewrite Hv.
  - rewrite (keys_map_entry entry _ Hk). apply Dense_fresh.
Qed.

Lemma direct_layer_step (cfg : config) (gw gb : list A) (k : nat) :
  let dims := layer_dimensions (net cfg) in
  k < length dims - 1 ->
  weight_offset dims (length dims - 1) <= length gw ->
  bias_offset dims (length dims - 1) <= length gb ->
  direct_layer cfg gw gb
    (weight_offset dims k, map (direct_entry dims gw gb) (seq 0 k))
    (k, (nth k dims 0, nth (S k) dims 0)) =
  Ok (weight_offset dims (S k), map (direct_entry dims gw gb) (seq 0 (S k))).
Proof.
  intros dims Hk Hw Hb. unfold direct_layer. fold dims.
  pose proof (weight_offset_mono dims (k := S k) (n := length dims - 1)) as Mw.
  pose proof (bias_offset_mono dims (k := S k) (n := length dims - 1)) as Mb.
  rewrite weight_offset_S in Mw. rewrite bias_offset_S in Mb.
  rewrite dynamic_slice_fits by lia. simpl bind.
  rewrite jnp_reshape_fits by (apply length_slice_fits; lia). simpl bind.
  rewrite code_bias_offset, dynamic_slice_fits by lia. simpl bind.
  rewrite weight_offset_S. f_equal. f_equal.
  now apply setitem_next.
Qed.

Lemma direct_blocks (genome : list A) (cfg : config) :
  let dims := layer_dimensions (net cfg) in
  let split := weight_offset dims (length dims - 1) in
  length genome = direct_enc_genome_size cfg ->
  length (firstn split genome) = split /\
  length (skipn split genome) = bias_offset dims (length dims - 1).
Proof.
  intros dims split H. rewrite direct_size_split in H. fold dims in H.
  rewrite length_firstn, length_skipn. unfold split. lia.
Qed.

(** The closed form of the direct decoder, on every genome that is at
    least as long as the direct genome size. *)
Lemma direct_decoding_enough (genome : list A) (cfg : config) :
  let dims := layer_dimensions (net cfg) in
  let split := weight_offset dims (length dims - 1) in
  direct_enc_genome_size cfg <= length genome ->
  direct_decoding genome cfg =
  Ok (map (direct_entry dims (firstn split genome) (skipn split genome))
          (seq 0 (length dims - 1))).
Proof.
  intros dims split H. rewrite direct_size_split in H. fold dims in H.
  fold split in H.
  assert (Hw : split <= length (firstn split genome))
    by (rewrite length_firstn; lia).
  assert (Hb : bias_offset dims (length dims - 1)
               <= length (skipn split genome))
    by (rewrite length_skipn; lia).
  unfold direct_decoding, jnp_split_at. fold dims.
  change (sum (map (fun i => nth i dims 0 * nth (i + 1) dims 0)
                   (seq 0 (length dims - 1)))) with split.
  rewrite enumerate_transitions.
  rewrite (for_each_seq_closed
             (direct_layer cfg (firstn split genome) (skipn split genome))
             (fun i => (i, (nth i dims 0, nth (S i) dims 0)))
             (fun k => (weight_offset dims k,
                        map (direct_entry dims (firstn split genome)
                                          (skipn split genome)) (seq 0 k)))).
  - reflexivity.
  - intros k Hk. apply direct_layer_step; fold dims; assumption.
Qed.

(** On a genome of the required size the direct decoder returns, and
    returns the entries in transition order. *)
Lemma direct_decoding_sized (genome : list A) (cfg : config) :
  let dims := layer_dimensions (net cfg) in
  let split := weight_offset dims (length dims - 1) in
  length genome = direct_enc_genome_size cfg ->
  direct_decoding genome cfg =
  Ok (map (direct_entry dims (firstn split genome) (skipn split genome))
          (seq 0 (length dims - 1))).
Proof.
  intros dims split H. apply direct_decoding_enough. rewrite H.
  apply Nat.le_refl.
Qed.

End DirectClosedForm.

(* ================================================================== *)
(** ** Closed form of the positional decoder *)

Lemma jnp_split_sections_fits {T : Type} (a : list T) (n d : nat) :
  0 < n -> length a = n * d ->
  jnp_split_sections a n = Ok (windows n d a).
Proof.
  intros Hn Ha. unfold jnp_split_sections.
  destruct (Nat.eqb_spec n 0) as [E|_]; [lia|].
  rewrite Ha, (Nat.mul_comm n d), Nat.Div0.mod_mul, Nat.div_mul by lia.
  reflexivity.
Qed.

Lemma gene_size_split (cfg : config) (size : nat) :
  let dims := layer_dimensions (net cfg) in
  gene_enc_genome_size cfg = Ok size ->
  size = sum dims * enc_d (encoding cfg) + sum (skipn 1 dims).
Proof.
  intros dims. unfold gene_enc_genome_size. fold dims.
  destruct dims as [|l0 r]; [discriminate|].
  intros E; injection E as <-. simpl skipn. rewrite sum_cons. nia.
Qed.

Section GeneClosedForm.
Variable A : Type.
Variable Distances : string -> option (list A -> list A -> A).

Lemma gene_layer_step (cfg : config) (dist : list A -> list A -> A)
      (gw gb : list A) (k : nat) :
  let dims := layer_dimensions (net cfg) in
  let d := enc_d (encoding cfg) in
  k < length dims - 1 ->
  Distances (enc_distance (encoding cfg)) = Some dist ->
  0 < sum dims ->
  length gw = sum dims * d ->
  bias_offset dims (length dims - 1) <= length gb ->
  gene_layer Distances cfg gw gb
    (map (gene_entry dims dist d gw gb) (seq 0 k))
    (k, (nth k dims 0, nth (S k) dims 0)) =
  Ok (map (gene_entry dims dist d gw gb) (seq 0 (S k))).
Proof.
  intros dims d Hk Hd Hn Hw Hb. unfold gene_layer. fold dims.
  rewrite (@jnp_split_sections_fits _ gw (sum dims) d Hn Hw). simpl bind.
  unfold getitem, Vectorized_distances. rewrite Hd. simpl bind.
  pose proof (bias_offset_mono dims (k := S k) (n := length dims - 1)) as Mb.
  rewrite bias_offset_S in Mb.
  rewrite code_bias_offset, code_layer_offset, dynamic_slice_fits by lia.
  simpl bind. f_equal.
  now apply setitem_next.
Qed.

Lemma gene_blocks (genome : list A) (cfg : config) (size : nat) :
  let dims := layer_dimensions (net cfg) in
  let split := sum dims * enc_d (encoding cfg) in
  gene_enc_genome_size cfg = Ok size ->
  length genome = size ->
  length (firstn split genome) = split /\
  length (skipn split genome) = sum (skipn 1 dims).
Proof.
  intros dims split Hs H. apply gene_size_split in Hs. fold dims in Hs.
  rewrite length_firstn, length_skipn. unfold split. lia.
Qed.

(** On a genome of the required size, with a registered metric, the
    positional decoder returns, and returns the entries in order. *)
Lemma gene_decoding_sized (genome : list A) (cfg : config)
      (dist : list A -> list A -> A) (size : nat) :
  let dims := layer_dimensions (net cfg) in
  let d := enc_d (encoding cfg) in
  let split := sum dims * d in
  gene_enc_genome_size cfg = Ok size ->
  length genome = size ->
  Distances (enc_distance (encoding cfg)) = Some dist ->
  0 < sum dims ->
  gene_decoding Distances genome cfg =
  Ok (map (gene_entry dims dist d (firstn split genome) (skipn split genome))
          (seq 0 (length dims - 1))).
Proof.
  intros dims d split Hs H Hd Hn.
  destruct (gene_blocks genome cfg Hs H) as [Hw Hb].
  fold dims in Hw, Hb. fold d in Hw. fold split in Hw, Hb.
  unfold gene_decoding. rewrite Hs. simpl bind.
  rewrite H, Nat.eqb_refl. simpl bind.
  unfold jnp_split_at. fold dims. fold d. fold split.
  rewrite enumerate_transitions.
  apply (for_each_seq_closed
           (gene_layer Distances cfg (firstn split genome)
                       (skipn split genome))
           (fun i => (i, (nth i dims 0, nth (S i) dims 0)))
           (fun k => map (gene_entry dims dist d (firstn split genome)
                                     (skipn split genome)) (seq 0 k))).
  intros k Hk. apply gene_layer_step; fold dims; fold d; try assumption.
  rewrite bias_offset_all. unfold split, d. rewrite Hb. apply Nat.le_refl.
Qed.

End GeneClosedForm.

(* ================================================================== *)
(** ** Valid topologies *)

Lemma valid_topology_sum (dims : list nat) :
  valid_topology dims -> 0 < sum dims.
Proof.
  intros [L P]. destruct dims as [|a r]; [simpl in L; lia|].
  rewrite sum_cons. inversion P; subst. lia.
Qed.

(* ================================================================== *)
(** ** The two genome sizes *)

(** C3. The direct genome size is the sum, over the transitions [i], of
    [dims[i] * dims[i+1] + dims[i+1]] (this holds for every topology);
    for the topology [4; 3; 2] it is 23. *)
Theorem C3_direct_size :
  (forall cfg : config,
      let dims := layer_dimensions (net cfg) in
      direct_enc_genome_size cfg =
      sum (map (fun i => nth i dims 0 * nth (i + 1) dims 0
                         + nth (i + 1) dims 0)
               (seq 0 (length dims - 1))))
  /\ (forall (d : nat) (distance type : string),
         direct_enc_genome_size (mk_config [4; 3; 2] d distance type) = 23).
Proof.
  split.
  - intros cfg dims. unfold direct_enc_genome_size. fold dims.
    rewrite transitions_seq, map_map. f_equal.
    apply map_ext; intros i. now rewrite Nat.add_1_r.
  - reflexivity.
Qed.

Section GeneSize.
Variable A : Type.
Variable Distances : string -> option (list A -> list A -> A).

(** C4. For a topology with an input layer and a position dimensionality
    [d], the positional genome size is
    [dims[0] * d + (dims[1] + ... + dims[L-1]) * (d + 1)], and on a genome
    of that size the decoder runs its loop on the two blocks obtained by
    cutting the genome at [sum dims * d]: a position block of exactly
    that length and a bias block with one gene per non-input neuron. *)
Theorem C4_gene_size_and_split (cfg : config) (genome : list A) :
  let dims := layer_dimensions (net cfg) in
  let d := enc_d (encoding cfg) in
  let biases := sum (map (fun i => nth i dims 0) (seq 1 (length dims - 1))) in
  let size := nth 0 dims 0 * d + biases * (d + 1) in
  2 <= length dims ->
  0 < d ->
  gene_enc_genome_size cfg = Ok size
  /\ (length genome = size ->
      let genome_w := firstn (sum dims * d) genome in
      let genome_b := skipn (sum dims * d) genome in
      genome = genome_w ++ genome_b
      /\ length genome_w = sum dims * d
      /\ length genome_b = biases
      /\ gene_decoding Distances genome cfg =
         for_each (gene_layer Distances cfg genome_w genome_b)
                  (enumerate (transitions dims)) []).
Proof.
  intros dims d biases size HL Hd.
  assert (Hb : biases = sum (skipn 1 dims))
    by (unfold biases; fold (bias_offset dims (length dims - 1));
        apply bias_offset_all).
  assert (Hs : gene_enc_genome_size cfg = Ok size).
  { unfold gene_enc_genome_size, size. fold dims. fold d. rewrite Hb.
    destruct dims as [|l0 r]; [simpl in HL; lia|]. reflexivity. }
  split; [exact Hs|].
  intros Hlen genome_w genome_b.
  destruct (gene_blocks genome cfg Hs Hlen) as [Hw Hgb].
  repeat split.
  - symmetry. apply firstn_skipn.
  - exact Hw.
  - rewrite Hb. exact Hgb.
  - unfold gene_decoding. rewrite Hs. simpl bind.
    rewrite Hlen, Nat.eqb_refl. reflexivity.
Qed.

End GeneSize.

Lemma C4_gene_size_and_split_witness :
  let cfg := mk_config [2; 2] 1 "L2" "gene" in
  let genome := [0; 5; 10; 15; 1; 2] in
  2 <= length (layer_dimensions (net cfg))
  /\ 0 < enc_d (encoding cfg)
  /\ gene_enc_genome_size cfg = Ok 6
  /\ (length genome = 6 ->
      genome = [0; 5; 10; 15] ++ [1; 2]
      /\ length [0; 5; 10; 15] = 4
      /\ length [1; 2] = 2
      /\ gene_decoding (fun _ => None) genome cfg =
         for_each (gene_layer (fun _ => None) cfg [0; 5; 10; 15] [1; 2])
                  (enumerate (transitions [2; 2])) []).
Proof.
  intros cfg genome.
  assert (HL : 2 <= length (layer_dimensions (net cfg))) by (simpl; lia).
  assert (Hd : 0 < enc_d (encoding cfg)) by (simpl; lia).
  split; [exact HL|]. split; [exact Hd|].
  exact (C4_gene_size_and_split (fun _ => None) cfg genome HL Hd).
Defined.

(* ================================================================== *)
(** ** Direct encoding: building a genome from chosen parameters *)

Section RoundTrip.
Variable A : Type.

Lemma firstn_app_exact {T : Type} (a b : list T) (n : nat) :
  length a = n -> firstn n (a ++ b) = a.
Proof.
  intros <-. rewrite firstn_app, firstn_all, Nat.sub_diag. simpl.
  apply app_nil_r.
Qed.

Lemma skipn_app_exact {T : Type} (a b : list T) (n : nat) :
  length a = n -> skipn n (a ++ b) = b.
Proof.
  intros <-. rewrite skipn_app, skipn_all, Nat.sub_diag. reflexivity.
Qed.

Lemma windows_concat {T : Type} (w : list (list T)) (cols : nat) :
  Forall (fun r => length r = cols) w ->
  windows (length w) cols (concat w) = w.
Proof.
  induction 1 as [|r w Hr _ IH]; [reflexivity|].
  simpl. rewrite (firstn_app_exact r _ Hr), (skipn_app_exact r _ Hr).
  now rewrite IH.
Qed.

Lemma length_concat_shape (w : list (list A)) (rows cols : nat) :
  has_shape w rows cols -> length (concat w) = rows * cols.
Proof.
  intros [<- F]. induction F as [|r w Hr _ IH]; [reflexivity|].
  simpl. rewrite length_app, IH, Hr. reflexivity.
Qed.

Lemma concat_block {T : Type} (xss : list (list T)) (k : nat) (x : list T) :
  nth_error xss k = Some x ->
  firstn (length x) (skipn (length (concat (firstn k xss))) (concat xss)) = x.
Proof.
  revert k; induction xss as [|y r IH]; intros [|k] H; simpl in H;
    try discriminate.
  - injection H as ->. simpl. now apply firstn_app_exact.
  - simpl firstn. simpl concat. rewrite length_app, Nat.add_comm.
    rewrite <- skipn_skipn, (skipn_app_exact y _ eq_refl).
    now apply IH.
Qed.

Lemma enumerate_nth {U : Type} (l : list U) (dflt : U) :
  enumerate l = map (fun i => (i, nth i l dflt)) (seq 0 (length l)).
Proof.
  unfold enumerate.
  enough (G : forall k, combine (seq k (length l)) l =
                        map (fun i => (i, nth (i - k) l dflt))
                            (seq k (length l))).
  { rewrite G. apply map_ext; intros i. now rewrite Nat.sub_0_r. }
  induction l as [|x l IH]; intros k; [reflexivity|].
  simpl. rewrite Nat.sub_diag. f_equal. rewrite IH.
  apply map_ext_in; intros i Hi. apply in_seq in Hi.
  replace (i - k) with (S (i - S k)) by lia. reflexivity.
Qed.

Section Offsets.
Variable dims : list nat.
Variable layers : list (list (list A) * list A).
Hypothesis M : layers_match dims layers.

Lemma weight_offset_layers (k : nat) :
  k <= length layers ->
  weight_offset dims k =
  length (concat (firstn k (map (fun l => concat (fst l)) layers))).
Proof.
  induction k as [|k IH]; intros Hk; [reflexivity|].
  rewrite weight_offset_S, IH by lia.
  destruct (nth_error layers k) as [[w b]|] eqn:E;
    [|apply nth_error_None in E; lia].
  rewrite (firstn_snoc _ k (x := concat w))
    by (rewrite nth_error_map, E; reflexivity).
  rewrite concat_app, length_app. simpl. rewrite app_nil_r.
  destruct M as [_ Sh]. destruct (Sh k w b E) as [Hw _].
  now rewrite (length_concat_shape Hw).
Qed.

Lemma bias_offset_layers (k : nat) :
  k <= length layers ->
  bias_offset dims k = length (concat (firstn k (map snd layers))).
Proof.
  induction k as [|k IH]; intros Hk; [reflexivity|].
  rewrite bias_offset_S, IH by lia.
  destruct (nth_error layers k) as [[w b]|] eqn:E;
    [|apply nth_error_None in E; lia].
  rewrite (firstn_snoc _ k (x := b))
    by (rewrite nth_error_map, E; reflexivity).
  rewrite concat_app, length_app. simpl. rewrite app_nil_r.
  destruct M as [_ Sh]. destruct (Sh k w b E) as [_ Hb].
  now rewrite Hb.
Qed.

Lemma direct_entry_layers (i : nat) (w : list (list A)) (b : list A) :
  nth_error layers i = Some (w, b) ->
  direct_entry dims (concat (map (fun l => concat (fst l)) layers))
               (concat (map snd layers)) i =
  (Dense i, [("kernel", Matrix w); ("bias", Vector b)]).
Proof.
  intros E.
  assert (Hi : i < length layers) by (apply nth_error_Some; congruence).
  destruct M as [_ Sh]. destruct (Sh i w b E) as [Hw Hb].
  unfold direct_entry, direct_kernel, bias_at.
  rewrite weight_offset_layers, bias_offset_layers by lia.
  assert (Ew : firstn (nth i dims 0 * nth (S i) dims 0)
                 (skipn (length (concat (firstn i
                           (map (fun l => concat (fst l)) layers))))
                        (concat (map (fun l => concat (fst l)) layers)))
               = concat w).
  { rewrite <- (length_concat_shape Hw). apply concat_block.
    rewrite nth_error_map, E. reflexivity. }
  assert (Eb : firstn (nth (S i) dims 0)
                 (skipn (length (concat (firstn i (map snd layers))))
                        (concat (map snd layers))) = b).
  { rewrite <- Hb. apply concat_block.
    rewrite nth_error_map, E. reflexivity. }
  rewrite Ew, Eb. destruct Hw as [Hr Hc].
  rewrite <- Hr, (windows_concat Hc). reflexivity.
Qed.

End Offsets.

(** C2. Direct-encoding round trip: for chosen weight matrices and bias
    vectors of the shapes of the topology, the genome made of all the
    weights (row-major per transition, in transition order) followed by
    all the biases decodes to exactly those matrices and vectors. *)
Theorem C2_direct_round_trip (cfg : config)
        (layers : list (list (list A) * list A)) :
  valid_topology (layer_dimensions (net cfg)) ->
  layers_match (layer_dimensions (net cfg)) layers ->
  direct_decoding (encode_direct layers) cfg = Ok (params_of layers).
Proof.
  intros _ M. set (dims := layer_dimensions (net cfg)) in *.
  set (W := concat (map (fun l => concat (fst l)) layers)).
  set (B := concat (map snd layers)).
  assert (HL : length layers = length dims - 1) by apply M.
  assert (HW : length W = weight_offset dims (length dims - 1)).
  { rewrite <- HL, (weight_offset_layers M) by lia.
    rewrite firstn_all2 by (rewrite length_map; lia). reflexivity. }
  assert (HB : length B = bias_offset dims (length dims - 1)).
  { rewrite <- HL, (bias_offset_layers M) by lia.
    rewrite firstn_all2 by (rewrite length_map; lia). reflexivity. }
  unfold encode_direct. fold W. fold B.
  rewrite direct_decoding_sized
    by (rewrite direct_size_split, length_app; fold dims; lia).
  fold dims. rewrite (firstn_app_exact W B HW), (skipn_app_exact W B HW).
  f_equal. unfold params_of.
  rewrite (enumerate_nth layers ([], [])), map_map, HL.
  apply map_ext_in; intros i Hi. apply in_seq in Hi.
  destruct (nth i layers ([], [])) as [w b] eqn:E.
  apply (direct_entry_layers M).
  rewrite <- E. apply nth_error_nth'. lia.
Qed.

End RoundTrip.

Lemma C2_direct_round_trip_witness :
  let cfg := mk_config [2; 2] 1 "L2" "direct" in
  let layers := [([[1; 2]; [3; 4]], [5; 6])] in
  valid_topology (layer_dimensions (net cfg))
  /\ layers_match (layer_dimensions (net cfg)) layers
  /\ direct_decoding [1; 2; 3; 4; 5; 6] cfg =
     Ok [("Dense_0", [("kernel", Matrix [[1; 2]; [3; 4]]);
                      ("bias", Vector [5; 6])])].
Proof.
  intros cfg layers.
  assert (V : valid_topology (layer_dimensions (net cfg)))
    by (split; simpl; [lia | repeat constructor]).
  assert (M : layers_match (layer_dimensions (net cfg)) layers).
  { split; [reflexivity|].
    intros [|[|i]] w b E; simpl in E; try discriminate.
    injection E as <- <-. unfold has_shape. simpl. repeat constructor. }
  split; [exact V|]. split; [exact M|].
  exact (C2_direct_round_trip cfg V M).
Defined.

(* ================================================================== *)
(** ** Shapes and bias blocks of the decoded entries *)

Section Shapes.
Variable A : Type.
Variable Distances : string -> option (list A -> list A -> A).

Lemma windows_shape (rows cols : nat) (a : list A) :
  rows * cols <= length a -> has_shape (windows rows cols a) rows cols.
Proof.
  revert a; induction rows as [|r IH]; intros a H.
  - split; [reflexivity | constructor].
  - simpl in H.
    destruct (IH (skipn cols a)) as [L F];
      [rewrite length_skipn; lia|].
    split; simpl; [now rewrite L|].
    constructor; [|exact F]. rewrite length_firstn. lia.
Qed.

Lemma vectorized_shape (dist : list A -> list A -> A)
      (positions : list (list A)) (src_idx target_idx : list nat) :
  has_shape (vectorized dist positions src_idx target_idx)
            (length src_idx) (length target_idx).
Proof.
  unfold vectorized. split; [apply length_map|].
  apply Forall_map, Forall_forall. intros s _. apply length_map.
Qed.

Lemma direct_kernel_shape (dims : list nat) (gw : list A) (i : nat) :
  weight_offset dims (S i) <= length gw ->
  has_shape (direct_kernel dims gw i) (nth i dims 0) (nth (S i) dims 0).
Proof.
  intros H. rewrite weight_offset_S in H. unfold direct_kernel.
  apply windows_shape. rewrite length_slice_fits; lia.
Qed.

Lemma gene_kernel_shape (dims : list nat) (dist : list A -> list A -> A)
      (d : nat) (gw : list A) (i : nat) :
  has_shape (gene_kernel dims dist d gw i) (nth i dims 0) (nth (S i) dims 0).
Proof.
  unfold gene_kernel.
  pose proof (vectorized_shape dist (windows (sum dims) d gw)
    (map (Nat.add (layer_offset dims i)) (arange (nth i dims 0)))
    (map (Nat.add (layer_offset dims i + nth i dims 0))
         (arange (nth (S i) dims 0)))) as H.
  unfold arange in *. now rewrite !length_map, !length_seq in H.
Qed.

Lemma length_bias_at (dims : list nat) (gb : list A) (i : nat) :
  bias_offset dims (S i) <= length gb ->
  length (bias_at dims gb i) = nth (S i) dims 0.
Proof.
  intros H. rewrite bias_offset_S in H. unfold bias_at.
  apply length_slice_fits. lia.
Qed.

Lemma nth_error_entries (entry : nat -> string * layer_params A)
      (n i : nat) :
  i < n -> nth_error (map entry (seq 0 n)) i = Some (entry i).
Proof.
  intros H. rewrite nth_error_map, nth_error_seq.
  destruct (Nat.ltb_spec i n); [reflexivity | lia].
Qed.

(** C8. Size/shape consistency: for a valid topology of length [L] and
    genomes of the required sizes, each decoder returns exactly [L - 1]
    entries, and entry [i] holds a kernel of shape [(dims[i], dims[i+1])]
    and a bias of length [dims[i+1]]. *)
Theorem C8_shape_consistency (cfg : config) (genome_d genome_g : list A)
        (dist : list A -> list A -> A) :
  let dims := layer_dimensions (net cfg) in
  valid_topology dims ->
  length genome_d = direct_enc_genome_size cfg ->
  gene_enc_genome_size cfg = Ok (length genome_g) ->
  Distances (enc_distance (encoding cfg)) = Some dist ->
  (exists m, direct_decoding genome_d cfg = Ok m /\ well_shaped dims m)
  /\ (exists m, gene_decoding Distances genome_g cfg = Ok m
                /\ well_shaped dims m).
Proof.
  intros dims V Hd Hg HD. split.
  - destruct (direct_blocks genome_d cfg Hd) as [Hw Hb]. fold dims in Hw, Hb.
    eexists; split; [apply (direct_decoding_sized genome_d cfg Hd)|].
    fold dims. split; [now rewrite length_map, length_seq|].
    intros i Hi. do 2 eexists.
    split; [rewrite nth_error_entries by exact Hi; reflexivity|]. split.
    + apply direct_kernel_shape. rewrite Hw.
      apply weight_offset_mono. lia.
    + apply length_bias_at. rewrite Hb. apply bias_offset_mono. lia.
  - destruct (gene_blocks genome_g cfg Hg eq_refl) as [Hw Hb].
    fold dims in Hw, Hb.
    eexists; split;
      [apply (gene_decoding_sized Distances genome_g cfg Hg eq_refl HD
                                  (valid_topology_sum V))|].
    fold dims. split; [now rewrite length_map, length_seq|].
    intros i Hi. do 2 eexists.
    split; [rewrite nth_error_entries by exact Hi; reflexivity|]. split.
    + apply gene_kernel_shape.
    + apply length_bias_at. rewrite Hb, <- bias_offset_all.
      apply bias_offset_mono. lia.
Qed.

(** C7. In both decoders the bias vector of transition [i] is the slice
    of the bias block that starts at [dims[1] + ... + dims[i]] (the input
    layer is not counted) and has the length of the output layer; the
    first transition reads at offset 0. *)
Theorem C7_bias_offset (cfg : config) (genome_d genome_g : list A)
        (dist : list A -> list A -> A) (i : nat) :
  let dims := layer_dimensions (net cfg) in
  let layer_out := nth (S i) dims 0 in
  let bias_block_d := skipn (weight_offset dims (length dims - 1)) genome_d in
  let bias_block_g := skipn (sum dims * enc_d (encoding cfg)) genome_g in
  valid_topology dims ->
  i < length dims - 1 ->
  length genome_d = direct_enc_genome_size cfg ->
  gene_enc_genome_size cfg = Ok (length genome_g) ->
  Distances (enc_distance (encoding cfg)) = Some dist ->
  bias_offset dims 0 = 0
  /\ (exists m w,
         direct_decoding genome_d cfg = Ok m
         /\ nth_error m i =
            Some (Dense i,
                  [("kernel", Matrix w);
                   ("bias", Vector (firstn layer_out
                                      (skipn (bias_offset dims i)
                                             bias_block_d)))])
         /\ bias_offset dims i + layer_out <= length bias_block_d)
  /\ (exists m w,
         gene_decoding Distances genome_g cfg = Ok m
         /\ nth_error m i =
            Some (Dense i,
                  [("kernel", Matrix w);
                   ("bias", Vector (firstn layer_out
                                      (skipn (bias_offset dims i)
                                             bias_block_g)))])
         /\ bias_offset dims i + layer_out <= length bias_block_g).
Proof.
  intros dims layer_out bias_block_d bias_block_g V Hi Hd Hg HD.
  pose proof (bias_offset_mono dims (k := S i) (n := length dims - 1)) as Mb.
  rewrite bias_offset_S in Mb. fold layer_out in Mb.
  split; [reflexivity|]. split.
  - destruct (direct_blocks genome_d cfg Hd) as [_ Hb].
    fold dims in Hb. fold bias_block_d in Hb.
    do 2 eexists. split; [apply (direct_decoding_sized genome_d cfg Hd)|].
    fold dims. split; [rewrite nth_error_entries by exact Hi; reflexivity|].
    rewrite Hb. lia.
  - destruct (gene_blocks genome_g cfg Hg eq_refl) as [_ Hb].
    fold dims in Hb. fold bias_block_g in Hb.
    do 2 eexists. split;
      [apply (gene_decoding_sized Distances genome_g cfg Hg eq_refl HD
                                  (valid_topology_sum V))|].
    fold dims. split; [rewrite nth_error_entries by exact Hi; reflexivity|].
    rewrite Hb, <- bias_offset_all. lia.
Qed.

End Shapes.

Lemma C8_shape_consistency_witness :
  valid_topology (layer_dimensions (net sample_cfg))
  /\ length sample_genome = direct_enc_genome_size sample_cfg
  /\ gene_enc_genome_size sample_cfg = Ok (length sample_genome)
  /\ sample_table (enc_distance (encoding sample_cfg)) = Some sample_metric
  /\ (exists m, direct_decoding sample_genome sample_cfg = Ok m
                /\ well_shaped [2; 2] m)
  /\ (exists m, gene_decoding sample_table sample_genome sample_cfg = Ok m
                /\ well_shaped [2; 2] m).
Proof.
  assert (V : valid_topology (layer_dimensions (net sample_cfg)))
    by (split; simpl; [lia | repeat constructor]).
  assert (Hd : length sample_genome = direct_enc_genome_size sample_cfg)
    by reflexivity.
  assert (Hg : gene_enc_genome_size sample_cfg = Ok (length sample_genome))
    by reflexivity.
  assert (HD : sample_table (enc_distance (encoding sample_cfg))
               = Some sample_metric) by reflexivity.
  split; [exact V|]. split; [exact Hd|]. split; [exact Hg|].
  split; [exact HD|].
  exact (C8_shape_consistency sample_table sample_cfg sample_genome
                              sample_genome V Hd Hg HD).
Defined.

Lemma C7_bias_offset_witness :
  valid_topology (layer_dimensions (net sample_cfg))
  /\ 0 < length (layer_dimensions (net sample_cfg)) - 1
  /\ length sample_genome = direct_enc_genome_size sample_cfg
  /\ gene_enc_genome_size sample_cfg = Ok (length sample_genome)
  /\ sample_table (enc_distance (encoding sample_cfg)) = Some sample_metric
  /\ bias_offset [2; 2] 0 = 0
  /\ (exists m w,
         direct_decoding sample_genome sample_cfg = Ok m
         /\ nth_error m 0 =
            Some (Dense 0, [("kernel", Matrix w); ("bias", Vector [1; 2])])
         /\ 0 + 2 <= length [1; 2])
  /\ (exists m w,
         gene_decoding sample_table sample_genome sample_cfg = Ok m
         /\ nth_error m 0 =
            Some (Dense 0, [("kernel", Matrix w); ("bias", Vector [1; 2])])
         /\ 0 + 2 <= length [1; 2]).
Proof.
  assert (V : valid_topology (layer_dimensions (net sample_cfg)))
    by (split; simpl; [lia | repeat constructor]).
  assert (Hi : 0 < length (layer_dimensions (net sample_cfg)) - 1)
    by (simpl; lia).
  assert (Hd : length sample_genome = direct_enc_genome_size sample_cfg)
    by reflexivity.
  assert (Hg : gene_enc_genome_size sample_cfg = Ok (length sample_genome))
    by reflexivity.
  assert (HD : sample_table (enc_distance (encoding sample_cfg))
               = Some sample_metric) by reflexivity.
  split; [exact V|]. split; [exact Hi|]. split; [exact Hd|].
  split; [exact Hg|]. split; [exact HD|].
  exact (C7_bias_offset sample_table sample_cfg sample_genome
                        sample_genome V Hi Hd Hg HD).
Defined.

(* ================================================================== *)
(** ** Keys and entries of the decoded mapping *)

Section Keys.
Variable A : Type.
Variable Distances : string -> option (list A -> list A -> A).

Lemma dense_dict_setitem (k : nat) (m : model_params A)
      (e : layer_params A) :
  dense_dict k m -> entry_form e ->
  dense_dict (S k) (setitem (Dense k) e m).
Proof.
  intros [K F] E. rewrite setitem_fresh by (rewrite K; apply Dense_fresh).
  split.
  - unfold keys in *. rewrite map_app, K, seq_S, map_app. reflexivity.
  - apply Forall_app. split; [exact F|]. constructor; [exact E|constructor].
Qed.

Lemma gene_layer_inv (cfg : config) (gw gb : list A)
      (m m' : model_params A) (k : nat) (x : nat * nat) :
  dense_dict k m ->
  gene_layer Distances cfg gw gb m (k, x) = Ok m' ->
  dense_dict (S k) m'.
Proof.
  intros I. destruct x as [layer_in layer_out]. unfold gene_layer.
  destruct (jnp_split_sections gw _) as [pos|]; simpl; [|discriminate].
  destruct (getitem _ _) as [distance|]; simpl; [|discriminate].
  destruct (dynamic_slice gb _ _) as [biases|]; simpl; [|discriminate].
  intros E; injection E as <-.
  apply dense_dict_setitem; [exact I|]. now do 2 eexists.
Qed.

Lemma direct_layer_inv (cfg : config) (gw gb : list A)
      (st st' : nat * model_params A) (k : nat) (x : nat * nat) :
  dense_dict k (snd st) ->
  direct_layer cfg gw gb st (k, x) = Ok st' ->
  dense_dict (S k) (snd st').
Proof.
  intros I. destruct x as [layer_in layer_out]. destruct st as [offset m].
  unfold direct_layer.
  destruct (dynamic_slice gw _ _) as [weights|]; simpl; [|discriminate].
  destruct (jnp_reshape weights _ _) as [wm|]; simpl; [|discriminate].
  destruct (dynamic_slice gb _ _) as [biases|]; simpl; [|discriminate].
  intros E; injection E as <-.
  apply dense_dict_setitem; [exact I|]. now do 2 eexists.
Qed.

Lemma dense_dict_nil : @dense_dict A 0 [].
Proof. split; [reflexivity | constructor]. Qed.

(** C10. Whenever one of the decoders returns a mapping for a topology of
    length [L >= 2], its keys are ["Dense_0"], ..., ["Dense_{L-2}"] in this
    (insertion) order, and every entry holds exactly the two fields
    ["kernel"] (a matrix) and ["bias"] (a vector). *)
Theorem C10_dense_keys (cfg : config) (genome : list A)
        (m : model_params A) :
  let dims := layer_dimensions (net cfg) in
  2 <= length dims ->
  direct_decoding genome cfg = Ok m
  \/ gene_decoding Distances genome cfg = Ok m ->
  keys m = map Dense (seq 0 (length dims - 1))
  /\ Forall (fun kv => exists w b,
                 snd kv = [("kernel", Matrix w); ("bias", Vector b)]) m.
Proof.
  intros dims _ [H|H]; change (dense_dict (length dims - 1) m).
  - unfold direct_decoding, jnp_split_at in H. fold dims in H.
    rewrite enumerate_transitions in H.
    destruct (for_each _ _ _) as [st|] eqn:E; simpl in H; [|discriminate].
    injection H as <-.
    refine (@for_each_seq_inv _ _ _ _ (fun k s => dense_dict k (snd s)) _
                              _ (0, []) _ dense_dict_nil E).
    intros k s s' _ I B. eapply direct_layer_inv; [exact I | exact B].
  - unfold gene_decoding, jnp_split_at in H. fold dims in H.
    destruct (gene_enc_genome_size cfg) as [size|]; simpl in H;
      [|discriminate].
    destruct (assert _) as [[]|]; simpl in H; [|discriminate].
    rewrite enumerate_transitions in H.
    refine (@for_each_seq_inv _ _ _ _ (@dense_dict A) _ _ _ _
                              dense_dict_nil H).
    intros k s s' _ I B. eapply gene_layer_inv; [exact I | exact B].
Qed.

End Keys.

Lemma C10_dense_keys_witness :
  2 <= length (layer_dimensions (net sample_cfg))
  /\ (exists m,
         direct_decoding sample_genome sample_cfg = Ok m
         /\ keys m = ["Dense_0"]
         /\ Forall (fun kv => exists w b,
                        snd kv = [("kernel", Matrix w); ("bias", Vector b)])
                   m)
  /\ (exists m,
         gene_decoding sample_table sample_genome sample_cfg = Ok m
         /\ keys m = ["Dense_0"]
         /\ Forall (fun kv => exists w b,
                        snd kv = [("kernel", Matrix w); ("bias", Vector b)])
                   m).
Proof.
  assert (HL : 2 <= length (layer_dimensions (net sample_cfg)))
    by (simpl; lia).
  split; [exact HL|]. split.
  - eexists. split; [reflexivity|].
    exact (C10_dense_keys sample_table sample_cfg sample_genome HL
                          (or_introl eq_refl)).
  - eexists. split; [reflexivity|].
    exact (C10_dense_keys sample_table sample_cfg sample_genome HL
                          (or_intror eq_refl)).
Defined.

(* ================================================================== *)
(** ** Genome length *)

Lemma for_each_err {St X : Type} (body : St -> X -> result St)
      (items : list X) (s : St) (e : error) :
  for_each body items s = Err e -> exists s0 x, body s0 x = Err e.
Proof.
  revert s; induction items as [|x items IH]; intros s; simpl;
    [discriminate|].
  destruct (body s x) as [s1|e1] eqn:B; simpl.
  - apply IH.
  - intros E; injection E as ->. now exists s, x.
Qed.

Section LengthContract.
Variable A : Type.
Variable Distances : string -> option (list A -> list A -> A).

Lemma gene_layer_no_assertion (cfg : config) (gw gb : list A)
      (m : model_params A) (it : nat * (nat * nat)) :
  gene_layer Distances cfg gw gb m it <> Err AssertionError.
Proof.
  destruct it as [i [layer_in layer_out]].
  unfold gene_layer, jnp_split_sections, getitem, dynamic_slice.
  destruct (_ =? 0); simpl; [discriminate|].
  destruct (_ =? 0); simpl; [|discriminate].
  destruct (Vectorized_distances _ _); simpl; [|discriminate].
  destruct (_ <? _); simpl; discriminate.
Qed.

(** X1. The positional decoder checks the length of the genome first: on a
    topology with an input layer it fails its assertion exactly when
    the length is not the positional genome size. *)
Lemma gene_decoding_length_contract (cfg : config) (genome : list A)
      (size : nat) :
  gene_enc_genome_size cfg = Ok size ->
  (gene_decoding Distances genome cfg = Err AssertionError
   <-> length genome <> size).
Proof.
  intros Hs. unfold gene_decoding. rewrite Hs. simpl bind.
  destruct (Nat.eqb_spec (length genome) size) as [E|N]; simpl.
  - split; [|congruence]. unfold jnp_split_at. intros H.
    apply for_each_err in H as (s0 & x & B).
    now apply gene_layer_no_assertion in B.
  - split; [intros _; exact N | reflexivity].
Qed.

(** The direct decoder has no such check: it returns on every genome
    that is at least as long as the direct genome size. *)
Lemma direct_decoding_no_length_check (cfg : config) (genome : list A) :
  direct_enc_genome_size cfg <= length genome ->
  exists m, direct_decoding genome cfg = Ok m.
Proof.
  intros H. eexists. apply (direct_decoding_enough genome cfg H).
Qed.

End LengthContract.

(** C5. The direct decoder has no length check.  On the topology
    [1; 1] the direct genome size is 2, and a genome of three genes
    decodes, its last gene dropped; on [1; 1; 1] the size is 4, and a
    genome of three genes decodes, the clamped slice giving both
    transitions the same bias. *)
Theorem C5_direct_accepts_wrong_length :
  let cfg2 := mk_config [1; 1] 1 "L2" "direct" in
  let cfg3 := mk_config [1; 1; 1] 1 "L2" "direct" in
  direct_enc_genome_size cfg2 = 2
  /\ direct_decoding [1; 2; 3] cfg2 =
     Ok [("Dense_0", [("kernel", Matrix [[1]]); ("bias", Vector [2])])]
  /\ direct_enc_genome_size cfg3 = 4
  /\ direct_decoding [1; 2; 3] cfg3 =
     Ok [("Dense_0", [("kernel", Matrix [[1]]); ("bias", Vector [3])]);
         ("Dense_1", [("kernel", Matrix [[2]]); ("bias", Vector [3])])].
Proof. repeat split. Qed.

(* ================================================================== *)
(** ** Single-entry topologies *)

(** C6, counterexample. The direct decoder returns the empty mapping on
    the topology [5]; so does the positional decoder on a genome of five
    genes with [d = 1].  Neither fails. *)
Lemma C6_single_layer_counterexample :
  let cfg := mk_config [5] 1 "L2" "gene" in
  direct_decoding [7] cfg = Ok []
  /\ gene_decoding sample_table [1; 2; 3; 4; 5] cfg = Ok []
  /\ ~ (exists e : error, direct_decoding [7] cfg = Err e)
  /\ ~ (exists e : error,
           gene_decoding sample_table [1; 2; 3; 4; 5] cfg = Err e).
Proof.
  intros cfg. repeat split.
  - intros [e H]. discriminate H.
  - intros [e H]. discriminate H.
Qed.

Section SingleLayer.
Variable A : Type.
Variable Distances : string -> option (list A -> list A -> A).

(** C6, amended. On a single-entry topology [n] there is no transition,
    and no topology error: the direct decoder returns the empty mapping
    for every genome; the positional decoder returns the empty mapping
    for every genome of length [n * d] and fails its length assertion
    on every other genome. *)
Theorem C6_single_layer_topology (cfg : config) (n : nat)
        (genome : list A) :
  let d := enc_d (encoding cfg) in
  layer_dimensions (net cfg) = [n] ->
  direct_decoding genome cfg = Ok []
  /\ (length genome = n * d ->
      gene_decoding Distances genome cfg = Ok [])
  /\ (length genome <> n * d ->
      gene_decoding Distances genome cfg = Err AssertionError).
Proof.
  intros d Hn. split; [|split].
  - unfold direct_decoding. rewrite Hn. reflexivity.
  - intros HL. unfold gene_decoding, gene_enc_genome_size. rewrite Hn.
    simpl bind. fold d. rewrite Nat.add_0_r.
    rewrite HL, Nat.eqb_refl. reflexivity.
  - intros HL. unfold gene_decoding, gene_enc_genome_size. rewrite Hn.
    simpl bind. fold d. rewrite Nat.add_0_r.
    destruct (Nat.eqb_spec (length genome) (n * d)); [contradiction|].
    reflexivity.
Qed.

End SingleLayer.

Lemma C6_single_layer_topology_witness :
  let cfg := mk_config [5] 1 "L2" "gene" in
  layer_dimensions (net cfg) = [5]
  /\ direct_decoding [1; 2; 3; 4; 5] cfg = Ok []
  /\ gene_decoding sample_table [1; 2; 3; 4; 5] cfg = Ok []
  /\ gene_decoding sample_table [1; 2; 3] cfg = Err AssertionError.
Proof.
  intros cfg.
  assert (Hn : layer_dimensions (net cfg) = [5]) by reflexivity.
  destruct (C6_single_layer_topology sample_table cfg [1; 2; 3; 4; 5] Hn)
    as (Hd & Hg & _).
  destruct (C6_single_layer_topology sample_table cfg [1; 2; 3] Hn)
    as (_ & _ & Hf).
  split; [exact Hn|]. split; [exact Hd|]. split.
  - apply Hg. reflexivity.
  - apply Hf. simpl. lia.
Defined.

(* ================================================================== *)
(** ** Weights as distances between position windows *)

Lemma nth_windows {T : Type} (rows cols : nat) (a : list T) (k : nat) :
  k < rows -> nth k (windows rows cols a) [] = firstn cols (skipn (k * cols) a).
Proof.
  revert a k; induction rows as [|r IH]; intros a k H; [lia|].
  destruct k as [|k]; simpl; [reflexivity|].
  rewrite IH by lia. rewrite skipn_skipn. do 2 f_equal. lia.
Qed.

Lemma nth_map_in {X Y : Type} (f : X -> Y) (l : list X) (i : nat)
      (dx : X) (dy : Y) :
  i < length l -> nth i (map f l) dy = f (nth i l dx).
Proof.
  intros H. rewrite (nth_indep _ dy (f dx)) by (now rewrite length_map).
  apply map_nth.
Qed.

Lemma nth_shifted_arange (off n i : nat) :
  i < n -> nth i (map (Nat.add off) (arange n)) 0 = off + i.
Proof.
  intros H. unfold arange.
  rewrite (nth_map_in _ _ 0) by (now rewrite length_seq).
  now rewrite seq_nth.
Qed.

Section KernelEntries.
Variable A : Type.

(** Entry [(s, t)] of the kernel of transition [i] is the distance
    between the position windows of the neurons of global indices
    [layer_offset i + s] and [layer_offset i + layer_in + t]. *)
Lemma gene_kernel_entry (dims : list nat) (dist : list A -> list A -> A)
      (d : nat) (gw : list A) (i s t : nat) (z : A) :
  let position k := firstn d (skipn (k * d) gw) in
  i < length dims - 1 ->
  s < nth i dims 0 ->
  t < nth (S i) dims 0 ->
  nth t (nth s (gene_kernel dims dist d gw i) []) z =
  dist (position (layer_offset dims i + s))
       (position (layer_offset dims i + nth i dims 0 + t)).
Proof.
  intros position Hi Hs Ht.
  pose proof (layer_offset_mono dims (k := S (S i)) (n := length dims)) as M.
  rewrite !layer_offset_S, layer_offset_all in M.
  unfold gene_kernel, vectorized.
  rewrite (nth_map_in _ _ 0)
    by (unfold arange; now rewrite length_map, length_seq).
  rewrite (nth_map_in _ _ 0)
    by (unfold arange; now rewrite length_map, length_seq).
  rewrite !nth_shifted_arange by assumption.
  rewrite !nth_windows by lia. reflexivity.
Qed.

(** The positional decoder on the topology [2; 2] with [d = 1]. *)
Lemma gene_decoding_2_2 (Distances : string -> option (list A -> list A -> A))
      (dist : list A -> list A -> A) (p0 p1 p2 p3 b0 b1 : A) :
  Distances "L2" = Some dist ->
  gene_decoding Distances [p0; p1; p2; p3; b0; b1]
                (mk_config [2; 2] 1 "L2" "gene") =
  Ok [("Dense_0",
       [("kernel", Matrix [[dist [p0] [p2]; dist [p0] [p3]];
                           [dist [p1] [p2]; dist [p1] [p3]]]);
        ("bias", Vector [b0; b1])])].
Proof.
  intros H.
  rewrite (gene_decoding_sized Distances _
             (mk_config [2; 2] 1 "L2" "gene") (dist := dist) (size := 6))
    by (try reflexivity; try exact H; unfold sum; simpl; lia).
  reflexivity.
Qed.

End KernelEntries.

(* ================================================================== *)
(** ** The scenario of the positional scheme *)

Lemma L2_dist_1 (x y : R) : (x <= y)%R -> L2_dist [x] [y] = (y - x)%R.
Proof.
  intros H. unfold L2_dist, dot. cbn [combine map fold_right].
  replace ((x - y) * (x - y) + 0)%R with ((y - x) * (y - x))%R by ring.
  apply sqrt_square. lra.
Qed.

(** C1. On the topology [2; 2] with [d = 1] and the L2 metric, the genome
    [0; 5; 10; 15; 1; 2] decodes to the single transition with kernel
    [[10; 15]; [5; 10]] and bias [1; 2]; entry [(s, t)] of the kernel is
    the distance between the position windows of the neurons of global
    indices [layer_offset + s] and [layer_offset + layer_in + t]. *)
Theorem C1_gene_scenario :
  let cfg := mk_config [2; 2] 1 "L2" "gene" in
  let genome := [0; 5; 10; 15; 1; 2]%R in
  let position k := firstn 1 (skipn (k * 1) genome) in
  gene_decoding Distances_R genome cfg =
  Ok [("Dense_0", [("kernel", Matrix [[10; 15]; [5; 10]]%R);
                   ("bias", Vector [1; 2]%R)])]
  /\ map (fun s =>
            map (fun t => L2_dist (position (layer_offset [2; 2] 0 + s))
                                  (position (layer_offset [2; 2] 0 + 2 + t)))
                (seq 0 2))
         (seq 0 2) = [[10; 15]; [5; 10]]%R.
Proof.
  intros cfg genome position. split.
  - unfold cfg, genome.
    rewrite (gene_decoding_2_2 Distances_R (dist := L2_dist)) by reflexivity.
    rewrite !L2_dist_1 by lra.
    repeat (f_equal; try lra).
  - unfold position, genome. cbn [seq map layer_offset sum fold_left
                                   Nat.add Nat.mul firstn skipn].
    rewrite !L2_dist_1 by lra.
    repeat (f_equal; try lra).
Qed.

(* ================================================================== *)
(** ** More on the direct layout *)

Lemma firstn_add {T : Type} (n m : nat) (l : list T) :
  firstn (n + m) l = firstn n l ++ firstn m (skipn n l).
Proof.
  revert l; induction n as [|n IH]; intros l; [reflexivity|].
  destruct l as [|x l]; simpl.
  - now rewrite firstn_nil.
  - now rewrite IH.
Qed.

Lemma firstn_skipn_firstn {T : Type} (n k m : nat) (l : list T) :
  k + n <= m -> firstn n (skipn k (firstn m l)) = firstn n (skipn k l).
Proof.
  intros H. rewrite skipn_firstn_comm, firstn_firstn.
  now rewrite Nat.min_l by lia.
Qed.

Lemma concat_windows {T : Type} (rows cols : nat) (a : list T) :
  concat (windows rows cols a) = firstn (rows * cols) a.
Proof.
  revert a; induction rows as [|r IH]; intros a; [reflexivity|].
  simpl. now rewrite IH, firstn_add.
Qed.

(** Lists that agree on consecutive blocks covering them are equal. *)
Lemma blocks_ext {T : Type} (off : nat -> nat) (len : nat -> nat) (n : nat)
      (a b : list T) :
  off 0 = 0 ->
  (forall i, i < n -> off (S i) = off i + len i) ->
  (forall i, i < n ->
     firstn (len i) (skipn (off i) a) = firstn (len i) (skipn (off i) b)) ->
  length a <= off n -> length b <= off n ->
  a = b.
Proof.
  intros H0 HS HE La Lb.
  assert (G : forall k, k <= n -> firstn (off k) a = firstn (off k) b).
  { induction k as [|k IH]; intros Hk.
    - now rewrite H0.
    - rewrite HS, !firstn_add, IH, HE by lia. reflexivity. }
  rewrite <- (firstn_all2 a La), <- (firstn_all2 b Lb). now apply G.
Qed.

Section DirectLayout.
Variable A : Type.

Lemma direct_entry_truncated (dims : list nat) (genome : list A)
      (size i : nat) :
  let split := weight_offset dims (length dims - 1) in
  size = split + bias_offset dims (length dims - 1) ->
  i < length dims - 1 ->
  direct_entry dims (firstn split (firstn size genome))
               (skipn split (firstn size genome)) i =
  direct_entry dims (firstn split genome) (skipn split genome) i.
Proof.
  intros split Hs Hi.
  pose proof (bias_offset_mono dims (k := S i) (n := length dims - 1)) as Mb.
  rewrite bias_offset_S in Mb.
  unfold direct_entry, bias_at.
  rewrite firstn_firstn, Nat.min_l by lia.
  rewrite skipn_firstn_comm, firstn_skipn_firstn by lia.
  reflexivity.
Qed.

(** X2. The direct decoder reads the first [direct_enc_genome_size] genes
    only: on a longer genome it returns what it returns on the genome
    cut to the required size. *)
Theorem direct_decoding_ignores_tail (cfg : config) (genome : list A) :
  direct_enc_genome_size cfg <= length genome ->
  (exists m, direct_decoding genome cfg = Ok m)
  /\ direct_decoding genome cfg =
     direct_decoding (firstn (direct_enc_genome_size cfg) genome) cfg.
Proof.
  intros H. set (dims := layer_dimensions (net cfg)).
  rewrite (direct_decoding_enough genome cfg H).
  split; [eexists; reflexivity|].
  rewrite direct_decoding_sized
    by (rewrite length_firstn; lia).
  f_equal. symmetry. apply map_ext_in. intros i Hi. apply in_seq in Hi.
  apply direct_entry_truncated; [apply direct_size_split | lia].
Qed.

(** X3. Row-major layout: on a genome of the required size, entry [(s, t)]
    of the kernel of transition [i] is the gene at
    [weight_offset i + s * layer_out + t], and entry [t] of its bias is
    the gene at [split + bias_offset i + t], where [split] is the number
    of weights. *)
Theorem direct_decoding_layout (cfg : config) (genome : list A)
        (i s t : nat) (z : A) :
  let dims := layer_dimensions (net cfg) in
  let layer_in := nth i dims 0 in
  let layer_out := nth (S i) dims 0 in
  let split := weight_offset dims (length dims - 1) in
  length genome = direct_enc_genome_size cfg ->
  i < length dims - 1 ->
  t < layer_out ->
  exists m w b,
    direct_decoding genome cfg = Ok m
    /\ nth_error m i =
       Some (Dense i, [("kernel", Matrix w); ("bias", Vector b)])
    /\ (s < layer_in ->
        nth t (nth s w []) z =
        nth (weight_offset dims i + s * layer_out + t) genome z)
    /\ nth t b z = nth (split + bias_offset dims i + t) genome z.
Proof.
  intros dims layer_in layer_out split H Hi Ht.
  pose proof (weight_offset_mono dims (k := S i) (n := length dims - 1)) as Mw.
  rewrite weight_offset_S in Mw. fold layer_in layer_out split in Mw.
  do 3 eexists.
  split; [apply (direct_decoding_sized genome cfg H)|].
  split; [fold dims; rewrite nth_error_entries by exact Hi; reflexivity|].
  fold dims split. split.
  - intros Hs. unfold direct_kernel. fold layer_in layer_out.
    rewrite nth_windows by exact Hs.
    assert (s * layer_out + layer_out <= layer_in * layer_out) by nia.
    rewrite nth_firstn.
    destruct (Nat.ltb_spec t layer_out) as [_|]; [|lia].
    rewrite nth_skipn, nth_firstn.
    destruct (Nat.ltb_spec (s * layer_out + t) (layer_in * layer_out))
      as [_|]; [|lia].
    rewrite nth_skipn, nth_firstn.
    destruct (Nat.ltb_spec (weight_offset dims i + (s * layer_out + t)) split)
      as [_|]; [|lia].
    f_equal. lia.
  - unfold bias_at. fold layer_out.
    rewrite nth_firstn.
    destruct (Nat.ltb_spec t layer_out) as [_|]; [|lia].
    rewrite !nth_skipn. f_equal. lia.
Qed.

(** X4. No gene is lost: two genomes of the required size that decode to
    the same parameters are equal. *)
Theorem direct_decoding_injective (cfg : config) (g1 g2 : list A) :
  length g1 = direct_enc_genome_size cfg ->
  length g2 = direct_enc_genome_size cfg ->
  direct_decoding g1 cfg = direct_decoding g2 cfg ->
  g1 = g2.
Proof.
  intros H1 H2 E. set (dims := layer_dimensions (net cfg)).
  set (split := weight_offset dims (length dims - 1)).
  rewrite (direct_decoding_sized g1 cfg H1),
          (direct_decoding_sized g2 cfg H2) in E.
  fold dims split in E. injection E as E.
  assert (EE : forall i, i < length dims - 1 ->
             direct_entry dims (firstn split g1) (skipn split g1) i =
             direct_entry dims (firstn split g2) (skipn split g2) i).
  { intros i Hi.
    assert (N : nth_error (map (direct_entry dims (firstn split g1)
                                   (skipn split g1))
                               (seq 0 (length dims - 1))) i =
                nth_error (map (direct_entry dims (firstn split g2)
                                   (skipn split g2))
                               (seq 0 (length dims - 1))) i)
      by now rewrite E.
    rewrite !nth_error_entries in N by exact Hi. congruence. }
  destruct (direct_blocks g1 cfg H1) as [W1 B1].
  destruct (direct_blocks g2 cfg H2) as [W2 B2].
  fold dims split in W1, B1, W2, B2.
  rewrite <- (firstn_skipn split g1), <- (firstn_skipn split g2). f_equal.
  - apply (@blocks_ext A (weight_offset dims)
             (fun i => nth i dims 0 * nth (S i) dims 0) (length dims - 1));
      try lia; try reflexivity.
    + intros i _. apply weight_offset_S.
    + intros i Hi. specialize (EE i Hi). unfold direct_entry in EE.
      injection EE as K _. unfold direct_kernel in K.
      apply (f_equal (@concat A)) in K. rewrite !concat_windows in K.
      rewrite !firstn_firstn, Nat.min_id in K. exact K.
  - apply (@blocks_ext A (bias_offset dims) (fun i => nth (S i) dims 0)
                       (length dims - 1));
      try lia; try reflexivity.
    + intros i _. apply bias_offset_S.
    + intros i Hi. specialize (EE i Hi). unfold direct_entry in EE.
      injection EE as _ K. exact K.
Qed.

End DirectLayout.

(* ================================================================== *)
(** ** More on the positional decoder *)

Section PositionalFacts.
Variable A : Type.
Variable Distances : string -> option (list A -> list A -> A).

(** X5. On a valid topology, a genome of the required size and a registered
    metric, entry [(s, t)] of the kernel of transition [i] is the
    distance between two windows of [d] genes of the genome: the one of
    the neuron of global index [layer_offset i + s] and the one of the
    neuron of global index [layer_offset i + layer_in + t]. *)
Theorem gene_decoding_kernel_entry (cfg : config) (genome : list A)
        (dist : list A -> list A -> A) (i s t : nat) (z : A) :
  let dims := layer_dimensions (net cfg) in
  let d := enc_d (encoding cfg) in
  let position k := firstn d (skipn (k * d) genome) in
  valid_topology dims ->
  gene_enc_genome_size cfg = Ok (length genome) ->
  Distances (enc_distance (encoding cfg)) = Some dist ->
  i < length dims - 1 ->
  s < nth i dims 0 ->
  t < nth (S i) dims 0 ->
  exists m w b,
    gene_decoding Distances genome cfg = Ok m
    /\ nth_error m i =
       Some (Dense i, [("kernel", Matrix w); ("bias", Vector b)])
    /\ nth t (nth s w []) z =
       dist (position (layer_offset dims i + s))
            (position (layer_offset dims i + nth i dims 0 + t)).
Proof.
  intros dims d position V Hg HD Hi Hs Ht.
  pose proof (layer_offset_mono dims (k := S (S i)) (n := length dims)) as M.
  rewrite !layer_offset_S, layer_offset_all in M.
  do 3 eexists.
  split; [apply (gene_decoding_sized Distances genome cfg Hg eq_refl HD
                                     (valid_topology_sum V))|].
  split; [fold dims; rewrite nth_error_entries by exact Hi; reflexivity|].
  fold dims d. rewrite gene_kernel_entry by assumption.
  unfold position.
  rewrite !firstn_skipn_firstn by nia. reflexivity.
Qed.

(** X6. On a valid topology and a genome of the required size, the only
    failure left is the metric name: the decoder fails with [KeyError]
    exactly when the name is not registered. *)
Theorem gene_decoding_unknown_distance (cfg : config) (genome : list A) :
  let dims := layer_dimensions (net cfg) in
  valid_topology dims ->
  gene_enc_genome_size cfg = Ok (length genome) ->
  (gene_decoding Distances genome cfg = Err KeyError
   <-> Distances (enc_distance (encoding cfg)) = None)
  /\ (Distances (enc_distance (encoding cfg)) <> None ->
      exists m, gene_decoding Distances genome cfg = Ok m).
Proof.
  intros dims V Hg.
  assert (R : forall dist, Distances (enc_distance (encoding cfg)) = Some dist
                           -> exists m, gene_decoding Distances genome cfg
                                        = Ok m).
  { intros dist HD. eexists.
    apply (gene_decoding_sized Distances genome cfg Hg eq_refl HD
                               (valid_topology_sum V)). }
  split; [split|].
  - intros E. destruct (Distances _) as [dist|] eqn:HD; [|reflexivity].
    destruct (R dist eq_refl) as [m Hm]. congruence.
  - intros HD.
    destruct (gene_blocks genome cfg Hg eq_refl) as [Hw _].
    fold dims in Hw.
    unfold gene_decoding. rewrite Hg. simpl bind.
    rewrite Nat.eqb_refl. simpl bind. unfold jnp_split_at. fold dims.
    rewrite enumerate_transitions.
    pose proof (valid_topology_sum V) as Hn. destruct V as [L _].
    replace (length dims - 1) with (S (length dims - 2)) by lia.
    rewrite <- cons_seq. simpl map. simpl for_each.
    unfold gene_layer at 1. fold dims.
    rewrite (@jnp_split_sections_fits _ _ (sum dims) (enc_d (encoding cfg))
               Hn Hw).
    simpl bind. unfold getitem, Vectorized_distances. rewrite HD.
    reflexivity.
  - intros N. destruct (Distances _) as [dist|] eqn:HD; [|congruence].
    now apply (R dist).
Qed.

(** X7. The two schemes share the bias layout: genomes of the required
    sizes that end with the same bias block decode to the same bias
    vectors, transition by transition. *)
Theorem decoders_same_biases (cfg : config) (genome_d genome_g : list A)
        (dist : list A -> list A -> A) :
  let dims := layer_dimensions (net cfg) in
  valid_topology dims ->
  length genome_d = direct_enc_genome_size cfg ->
  gene_enc_genome_size cfg = Ok (length genome_g) ->
  Distances (enc_distance (encoding cfg)) = Some dist ->
  skipn (weight_offset dims (length dims - 1)) genome_d =
  skipn (sum dims * enc_d (encoding cfg)) genome_g ->
  exists md mg,
    direct_decoding genome_d cfg = Ok md
    /\ gene_decoding Distances genome_g cfg = Ok mg
    /\ forall i, i < length dims - 1 ->
         exists wd wg b,
           nth_error md i =
           Some (Dense i, [("kernel", Matrix wd); ("bias", Vector b)])
           /\ nth_error mg i =
              Some (Dense i, [("kernel", Matrix wg); ("bias", Vector b)]).
Proof.
  intros dims V Hd Hg HD HB.
  do 2 eexists.
  split; [apply (direct_decoding_sized genome_d cfg Hd)|].
  split; [apply (gene_decoding_sized Distances genome_g cfg Hg eq_refl HD
                                     (valid_topology_sum V))|].
  intros i Hi. fold dims. do 3 eexists.
  rewrite !nth_error_entries by exact Hi.
  unfold direct_entry, gene_entry. rewrite HB. split; reflexivity.
Qed.

End PositionalFacts.

(* ================================================================== *)
(** ** The two tables, and the sizes compared *)

Section Tables.
Variable A : Type.
Variable Distances : string -> option (list A -> list A -> A).

Lemma direct_well_shaped (cfg : config) (genome : list A) :
  length genome = direct_enc_genome_size cfg ->
  exists m, direct_decoding genome cfg = Ok m
            /\ well_shaped (layer_dimensions (net cfg)) m.
Proof.
  intros Hd. set (dims := layer_dimensions (net cfg)).
  destruct (direct_blocks genome cfg Hd) as [Hw Hb]. fold dims in Hw, Hb.
  eexists; split; [apply (direct_decoding_sized genome cfg Hd)|].
  fold dims. split; [now rewrite length_map, length_seq|].
  intros i Hi. do 2 eexists.
  split; [rewrite nth_error_entries by exact Hi; reflexivity|]. split.
  - apply direct_kernel_shape. rewrite Hw. apply weight_offset_mono. lia.
  - apply length_bias_at. rewrite Hb. apply bias_offset_mono. lia.
Qed.

Lemma gene_well_shaped (cfg : config) (genome : list A)
      (dist : list A -> list A -> A) :
  valid_topology (layer_dimensions (net cfg)) ->
  gene_enc_genome_size cfg = Ok (length genome) ->
  Distances (enc_distance (encoding cfg)) = Some dist ->
  exists m, gene_decoding Distances genome cfg = Ok m
            /\ well_shaped (layer_dimensions (net cfg)) m.
Proof.
  intros V Hg HD. set (dims := layer_dimensions (net cfg)).
  destruct (gene_blocks genome cfg Hg eq_refl) as [Hw Hb].
  fold dims in Hw, Hb.
  eexists; split;
    [apply (gene_decoding_sized Distances genome cfg Hg eq_refl HD
                                (valid_topology_sum V))|].
  fold dims. split; [now rewrite length_map, length_seq|].
  intros i Hi. do 2 eexists.
  split; [rewrite nth_error_entries by exact Hi; reflexivity|]. split.
  - apply gene_kernel_shape.
  - apply length_bias_at. rewrite Hb, <- bias_offset_all.
    apply bias_offset_mono. lia.
Qed.

(** X8. [Encoding_size_function] and [Encoding_function] have the same keys,
    and they fit: whatever the scheme of the configuration, a genome of
    the size that the first table gives is decoded by [genome_to_model],
    without error, into parameters of the shapes of the topology. *)
Theorem encoding_tables_fit (cfg : config) (genome : list A)
        (dist : list A -> list A -> A)
        (size_function : config -> result nat) :
  let dims := layer_dimensions (net cfg) in
  valid_topology dims ->
  Distances (enc_distance (encoding cfg)) = Some dist ->
  Encoding_size_function (enc_type (encoding cfg)) = Some size_function ->
  size_function cfg = Ok (length genome) ->
  (forall key, Encoding_size_function key = None
               <-> Encoding_function Distances key = None)
  /\ exists m, genome_to_model Distances genome cfg = Ok m
               /\ well_shaped dims m.
Proof.
  intros dims V HD HS Hn. split.
  - intros key. unfold Encoding_size_function, Encoding_function.
    destruct (String.eqb key "direct"); [split; discriminate|].
    destruct (String.eqb key "gene"); [split; discriminate|].
    split; reflexivity.
  - unfold genome_to_model, getitem, Encoding_function.
    unfold Encoding_size_function in HS.
    destruct (String.eqb _ "direct").
    + injection HS as <-. injection Hn as Hn. simpl bind.
      now apply direct_well_shaped.
    + destruct (String.eqb _ "gene"); [|discriminate].
      injection HS as <-. simpl bind.
      now apply (gene_well_shaped cfg genome (dist := dist)).
Qed.

(** X9. On the empty topology the positional size function fails on
    [l_dims[0]], and so does the positional decoder on every genome; the
    direct size is 0 and the direct decoder returns the empty mapping. *)
Theorem empty_topology (cfg : config) (genome : list A) :
  layer_dimensions (net cfg) = [] ->
  gene_enc_genome_size cfg = Err IndexError
  /\ gene_decoding Distances genome cfg = Err IndexError
  /\ direct_enc_genome_size cfg = 0
  /\ direct_decoding genome cfg = Ok [].
Proof.
  intros H. unfold gene_decoding, gene_enc_genome_size,
              direct_enc_genome_size, direct_decoding.
  rewrite H. repeat split.
Qed.

End Tables.

Lemma sum_transitions_ge (dims : list nat) (d : nat) :
  2 <= length dims ->
  Forall (fun n => 2 * d <= n) dims ->
  sum dims * d + sum (skipn 1 dims) <=
  sum (map (fun '(in_f, out_f) => in_f * out_f + out_f) (transitions dims)).
Proof.
  induction dims as [|a r IH]; intros L F; [simpl in L; lia|].
  destruct r as [|b r]; [simpl in L; lia|].
  inversion F as [|? ? Ha F']; subst. inversion F' as [|? ? Hb F'']; subst.
  rewrite transitions_cons2. simpl map. simpl skipn.
  rewrite (sum_cons (a * b + b)), (sum_cons a).
  destruct r as [|c r].
  - rewrite !sum_cons, sum_nil. simpl. nia.
  - assert (IH' := IH ltac:(simpl; lia) F'). simpl skipn in IH'.
    remember (c :: r) as r'. rewrite (sum_cons b) in *. nia.
Qed.

(** X10. The positional genome is the shorter one on wide networks: when
    every layer has at least [2 * d] neurons, the positional genome size
    is at most the direct genome size. *)
Theorem gene_size_le_direct_size (cfg : config) :
  let dims := layer_dimensions (net cfg) in
  let d := enc_d (encoding cfg) in
  2 <= length dims ->
  Forall (fun n => 2 * d <= n) dims ->
  exists size, gene_enc_genome_size cfg = Ok size
               /\ size <= direct_enc_genome_size cfg.
Proof.
  intros dims d L F.
  destruct (gene_enc_genome_size cfg) as [size|] eqn:E.
  - exists size. split; [reflexivity|].
    apply gene_size_split in E. fold dims d in E. rewrite E.
    unfold direct_enc_genome_size. fold dims.
    now apply sum_transitions_ge.
  - unfold gene_enc_genome_size in E. fold dims in E.
    destruct dims; [simpl in L; lia | discriminate].
Qed.

(* ================================================================== *)
(** ** Environment sizes and [fix_config_file] *)

Lemma lookup_None {V : Type} (key : string) (m : dict V) :
  lookup key m = None <-> ~ In key (keys m).
Proof.
  induction m as [|[k w] m IH]; simpl.
  - tauto.
  - destruct (String.eqb_spec k key) as [E|N].
    + split; [discriminate | intros H; exfalso; apply H; now left].
    + rewrite IH. tauto.
Qed.

Lemma lookup_Some_In {V : Type} (key : string) (v : V) (m : dict V) :
  lookup key m = Some v -> In (key, v) m.
Proof.
  induction m as [|[k w] m IH]; simpl; [discriminate|].
  destruct (String.eqb_spec k key) as [E|N].
  - intros H; injection H as <-. subst. now left.
  - intros H. right. now apply IH.
Qed.

Lemma brax_envs_positive :
  Forall (fun kv => 0 < observation_space (snd kv)
                    /\ 0 < action_space (snd kv)) brax_envs.
Proof. unfold brax_envs. repeat constructor; simpl; lia. Qed.

Lemma get_env_sizes_unregistered (env_name : string) :
  ~ In env_name (keys brax_envs) -> _get_env_sizes env_name = Err ValueError.
Proof.
  intros N. unfold _get_env_sizes, contains.
  apply lookup_None in N. now rewrite N.
Qed.

(** X11. [_get_env_sizes] returns the sizes of the seven registered
    environments, all positive, and raises [ValueError] on every other
    name. *)
Theorem get_env_sizes_registered (env_name : string) :
  (In env_name (keys brax_envs) ->
   exists sizes, _get_env_sizes env_name = Ok sizes
                 /\ In (env_name, sizes) brax_envs
                 /\ 0 < observation_space sizes
                 /\ 0 < action_space sizes)
  /\ (~ In env_name (keys brax_envs) ->
      _get_env_sizes env_name = Err ValueError).
Proof.
  unfold _get_env_sizes, contains. split.
  - intros I. destruct (lookup env_name brax_envs) as [sizes|] eqn:E.
    + exists sizes. apply lookup_Some_In in E.
      split; [reflexivity|]. split; [exact E|].
      exact (proj1 (Forall_forall _ _) brax_envs_positive _ E).
    + apply lookup_None in E. contradiction.
  - intros N. apply lookup_None in N. now rewrite N.
Qed.

Lemma get_env_sizes_positive (env_name : string) (sizes : env_sizes) :
  _get_env_sizes env_name = Ok sizes ->
  0 < observation_space sizes /\ 0 < action_space sizes.
Proof.
  unfold _get_env_sizes, contains.
  destruct (lookup env_name brax_envs) as [s|] eqn:E; simpl;
    [|discriminate].
  intros H; injection H as <-. apply lookup_Some_In in E.
  exact (proj1 (Forall_forall _ _) brax_envs_positive _ E).
Qed.

Lemma set_last_cons {T : Type} (v a : T) (mid : list T) (z : T) :
  set_last v (a :: mid ++ [z]) = Ok (a :: mid ++ [v]).
Proof.
  unfold set_last. f_equal.
  change (a :: mid ++ [z]) with ((a :: mid) ++ [z]).
  now rewrite removelast_last.
Qed.

Lemma fix_config_file_closed (cfg : config) (env_name : option string)
      (sizes : env_sizes) (a z : nat) (hidden : list nat) :
  _get_env_sizes (chosen_env cfg env_name) = Ok sizes ->
  layer_dimensions (net cfg) = a :: hidden ++ [z] ->
  fix_config_file cfg env_name =
  Ok (with_layer_dimensions cfg
        (observation_space sizes :: hidden ++ [action_space sizes])).
Proof.
  intros Hs Hd. unfold fix_config_file. fold (chosen_env cfg env_name).
  rewrite Hs. cbn [bind]. rewrite Hd.
  cbn [bind set_first with_layer_dimensions layer_dimensions net].
  rewrite set_last_cons. reflexivity.
Qed.

(** X12. With at least two layers and a registered environment,
    [fix_config_file] replaces the first layer size by the observation
    size and the last one by the action size; the hidden layers, the
    number of layers and every other entry of the configuration are
    kept. *)
Theorem fix_config_file_layers (cfg : config) (env_name : option string)
        (sizes : env_sizes) (a z : nat) (hidden : list nat) :
  _get_env_sizes (chosen_env cfg env_name) = Ok sizes ->
  layer_dimensions (net cfg) = a :: hidden ++ [z] ->
  exists fixed,
    fix_config_file cfg env_name = Ok fixed
    /\ layer_dimensions (net fixed) =
       observation_space sizes :: hidden ++ [action_space sizes]
    /\ length (layer_dimensions (net fixed)) =
       length (layer_dimensions (net cfg))
    /\ architecture (net fixed) = architecture (net cfg)
    /\ seed fixed = seed cfg
    /\ evo fixed = evo cfg
    /\ encoding fixed = encoding cfg
    /\ task fixed = task cfg.
Proof.
  intros Hs Hd. eexists.
  split; [apply (@fix_config_file_closed cfg env_name sizes a z hidden
                   Hs Hd)|].
  split; [reflexivity|]. split; [|repeat split].
  rewrite Hd. simpl. now rewrite !length_app.
Qed.

(** X13. The edge cases of [fix_config_file]: an unregistered environment
    raises [ValueError] whatever the layers are; with a registered one,
    an empty list of layers raises [IndexError], and a single layer ends
    as the action size, the observation size being overwritten. *)
Theorem fix_config_file_edges (cfg : config) (env_name : option string) :
  (~ In (chosen_env cfg env_name) (keys brax_envs) ->
   fix_config_file cfg env_name = Err ValueError)
  /\ (forall sizes,
         _get_env_sizes (chosen_env cfg env_name) = Ok sizes ->
         (layer_dimensions (net cfg) = [] ->
          fix_config_file cfg env_name = Err IndexError)
         /\ (forall a, layer_dimensions (net cfg) = [a] ->
                       fix_config_file cfg env_name =
                       Ok (with_layer_dimensions cfg [action_space sizes]))).
Proof.
  unfold fix_config_file. fold (chosen_env cfg env_name). split.
  - intros N.
    now rewrite (get_env_sizes_unregistered N).
  - intros sizes Hs. rewrite Hs. simpl bind. split.
    + intros ->. reflexivity.
    + intros a ->. reflexivity.
Qed.

Lemma fix_config_file_eq (cfg : config) (env_name : option string) :
  fix_config_file cfg env_name =
  (sizes <- _get_env_sizes (chosen_env cfg env_name) ;;
   d1 <- set_first (observation_space sizes) (layer_dimensions (net cfg)) ;;
   d2 <- set_last (action_space sizes) d1 ;;
   Ok (with_layer_dimensions cfg d2)).
Proof.
  unfold fix_config_file. fold (chosen_env cfg env_name).
  destruct (_get_env_sizes _) as [sizes|e]; [|reflexivity].
  cbn [bind]. destruct (set_first _ _) as [d1|e]; [|reflexivity].
  cbn [bind with_layer_dimensions layer_dimensions net].
  destruct (set_last _ _) as [d2|e]; reflexivity.
Qed.

Lemma fix_config_file_congr (cfg1 cfg2 : config) (e1 e2 : option string)
      (dims : list nat) :
  layer_dimensions (net cfg1) = layer_dimensions (net cfg2) ->
  chosen_env cfg1 e1 = chosen_env cfg2 e2 ->
  fix_config_file cfg1 e1 = Ok (with_layer_dimensions cfg1 dims) ->
  fix_config_file cfg2 e2 = Ok (with_layer_dimensions cfg2 dims).
Proof.
  intros Hd He. rewrite !fix_config_file_eq, Hd, He.
  destruct (_get_env_sizes _) as [sizes|e]; [|discriminate].
  cbn [bind]. destruct (set_first _ _) as [d1|e]; [|discriminate].
  cbn [bind]. destruct (set_last _ _) as [d2|e]; [|discriminate].
  cbn [bind]. intros H. injection H as ->. reflexivity.
Qed.

Lemma fix_config_file_result (cfg fixed : config) (env_name : option string) :
  fix_config_file cfg env_name = Ok fixed ->
  fixed = with_layer_dimensions cfg (layer_dimensions (net fixed)).
Proof.
  rewrite fix_config_file_eq.
  destruct (_get_env_sizes _) as [sizes|e]; [|discriminate].
  cbn [bind]. destruct (set_first _ _) as [d1|e]; [|discriminate].
  cbn [bind]. destruct (set_last _ _) as [d2|e]; [|discriminate].
  cbn [bind]. intros H. injection H as <-. reflexivity.
Qed.

Lemma fixed_layers_stable (obs act : nat) (l d1 d2 : list nat) :
  set_first obs l = Ok d1 -> set_last act d1 = Ok d2 ->
  exists d1', set_first obs d2 = Ok d1' /\ set_last act d1' = Ok d2.
Proof.
  destruct l as [|x r]; simpl; [discriminate|].
  intros H1; injection H1 as <-.
  destruct (exists_last (l := obs :: r) ltac:(discriminate)) as (p & z & E).
  rewrite E. destruct p as [|o hidden]; cbn [app] in *.
  - injection E as <- ->. simpl. intros H2; injection H2 as <-.
    exists [obs]. split; reflexivity.
  - injection E as <- ->. rewrite set_last_cons.
    intros H2; injection H2 as <-.
    exists (obs :: hidden ++ [act]). split; [reflexivity|].
    apply set_last_cons.
Qed.

Lemma chosen_env_with_layers (cfg : config) (dims : list nat)
      (env_name : option string) :
  chosen_env (with_layer_dimensions cfg dims) env_name
  = chosen_env cfg env_name.
Proof. now destruct env_name. Qed.

Lemma fix_config_file_stable (cfg fixed : config)
      (env_name : option string) :
  fix_config_file cfg env_name = Ok fixed ->
  fix_config_file fixed env_name = Ok fixed.
Proof.
  rewrite fix_config_file_eq.
  destruct (_get_env_sizes (chosen_env cfg env_name)) as [sizes|e] eqn:Hs;
    [|discriminate].
  cbn [bind].
  destruct (set_first _ _) as [d1|e] eqn:H1; [|discriminate]. cbn [bind].
  destruct (set_last _ _) as [d2|e] eqn:H2; [|discriminate]. cbn [bind].
  intros H; injection H as <-.
  destruct (@fixed_layers_stable _ _ _ _ _ H1 H2) as (d1' & F1 & F2).
  rewrite fix_config_file_eq, chosen_env_with_layers, Hs. cbn [bind].
  cbn [with_layer_dimensions layer_dimensions net].
  rewrite F1. cbn [bind]. rewrite F2. reflexivity.
Qed.

(** X14. Fixing a configuration twice is fixing it once: applied to a
    configuration that it returned, with any [env_name] that selects the
    same environment, [fix_config_file] returns it unchanged. *)
Theorem fix_config_file_idempotent (cfg fixed : config)
        (env_name env_name' : option string) :
  fix_config_file cfg env_name = Ok fixed ->
  chosen_env fixed env_name' = chosen_env cfg env_name ->
  fix_config_file fixed env_name' = Ok fixed.
Proof.
  intros H He.
  pose proof (fix_config_file_stable _ _ H) as St.
  pose proof (fix_config_file_result _ _ H) as R.
  assert (Hc : chosen_env fixed env_name' = chosen_env fixed env_name)
    by (rewrite He, R; symmetry; apply chosen_env_with_layers).
  rewrite fix_config_file_eq in St |- *. now rewrite Hc.
Qed.

Section FixThenDecode.
Variable A : Type.

(** X15. After [fix_config_file] the policy network fits the environment:
    when the hidden layers are non-empty, the fixed topology is valid,
    and every genome of the direct size decodes to a network whose first
    kernel has one row per observation and whose last bias has one
    entry per action. *)
Theorem fix_config_file_then_decode (cfg : config)
        (env_name : option string) (sizes : env_sizes) (a z : nat)
        (hidden : list nat) :
  _get_env_sizes (chosen_env cfg env_name) = Ok sizes ->
  layer_dimensions (net cfg) = a :: hidden ++ [z] ->
  Forall (fun n => 0 < n) hidden ->
  exists fixed,
    fix_config_file cfg env_name = Ok fixed
    /\ valid_topology (layer_dimensions (net fixed))
    /\ forall genome : list A,
         length genome = direct_enc_genome_size fixed ->
         exists m w0 b0 w b,
           direct_decoding genome fixed = Ok m
           /\ length m = S (length hidden)
           /\ nth_error m 0 =
              Some (Dense 0, [("kernel", Matrix w0); ("bias", Vector b0)])
           /\ length w0 = observation_space sizes
           /\ nth_error m (length hidden) =
              Some (Dense (length hidden),
                    [("kernel", Matrix w); ("bias", Vector b)])
           /\ length b = action_space sizes.
Proof.
  intros Hs Hd Hh.
  destruct (get_env_sizes_positive _ Hs) as [Po Pa].
  eexists. split; [apply (@fix_config_file_closed cfg env_name sizes a z
                             hidden Hs Hd)|].
  set (dims := observation_space sizes :: hidden ++ [action_space sizes]).
  assert (HL : length dims - 1 = S (length hidden))
    by (unfold dims; simpl; rewrite length_app; simpl; lia).
  split.
  - simpl. fold dims. split; [lia|].
    unfold dims. constructor; [exact Po|].
    apply Forall_app. split; [exact Hh|]. now constructor.
  - intros genome Hg.
    destruct (direct_well_shaped _ genome Hg) as (m & Hm & Lm & Sm).
    simpl layer_dimensions in Lm, Sm. fold dims in Lm, Sm.
    destruct (Sm 0 ltac:(lia)) as (w0 & b0 & E0 & [Hw0 _] & _).
    destruct (Sm (length hidden) ltac:(lia)) as (w & b & E & _ & Hb).
    exists m, w0, b0, w, b.
    split; [exact Hm|]. split; [lia|]. split; [exact E0|].
    split; [exact Hw0|]. split; [exact E|].
    rewrite Hb. unfold dims. simpl. now rewrite nth_middle.
Qed.

End FixThenDecode.

(** X16. [base_to_task] fails exactly when [fix_config_file] does; when it
    returns, the configuration it returns names the target task, has the
    given number of generations and the layers of the fixed copy, and is
    already fixed for its own task. *)
Theorem base_to_task_fixed (base_config : config) (target_task : string)
        (n_generations' : nat) :
  (forall e, base_to_task base_config target_task n_generations' = Err e
             <-> fix_config_file base_config (Some target_task) = Err e)
  /\ (forall c, base_to_task base_config target_task n_generations' = Ok c ->
        environnment (task c) = target_task
        /\ n_generations (evo c) = n_generations'
        /\ (exists fixed,
               fix_config_file base_config (Some target_task) = Ok fixed
               /\ layer_dimensions (net c) = layer_dimensions (net fixed))
        /\ encoding c = encoding base_config
        /\ fix_config_file c None = Ok c).
Proof.
  unfold base_to_task.
  destruct (fix_config_file base_config (Some target_task))
    as [fixed|e0] eqn:F; cbn [bind]; split.
  - intros e. split; discriminate.
  - intros c H. injection H as <-.
    pose proof (fix_config_file_result _ _ F) as R.
    pose proof (fix_config_file_stable _ _ F) as I.
    repeat split.
    + exists fixed. split; reflexivity.
    + rewrite R. reflexivity.
    + clear R F. destruct fixed as [sd ev [ld ar] en ta].
      set (fixed := {| seed := sd; evo := ev;
                       net := {| layer_dimensions := ld;
                                 architecture := ar |};
                       encoding := en; task := ta |}) in *.
      set (c := with_n_generations (with_environnment fixed target_task)
                                   n_generations').
      change (fix_config_file c None = Ok (with_layer_dimensions c ld)).
      apply (@fix_config_file_congr fixed c (Some target_task) None ld);
        try reflexivity.
      exact I.
  - intros e. split; intros H; injection H as <-; reflexivity.
  - intros c H. discriminate.
Qed.

(* ================================================================== *)
(** ** [validate_json] *)

Lemma contains_lookup {V : Type} (key : string) (m : dict V) :
  contains key m = true <-> exists v, lookup key m = Some v.
Proof.
  unfold contains. destruct (lookup key m) as [v|].
  - split; [intros _; now exists v | reflexivity].
  - split; [discriminate | intros [v H]; discriminate].
Qed.

Lemma lookup_setitem_eq {V : Type} (key : string) (v : V) (m : dict V) :
  lookup key (setitem key v m) = Some v.
Proof.
  induction m as [|[k w] m IH]; simpl.
  - now rewrite String.eqb_refl.
  - destruct (String.eqb_spec k key) as [E|N]; simpl.
    + subst. now rewrite String.eqb_refl.
    + destruct (String.eqb_spec k key); [contradiction | exact IH].
Qed.

Lemma lookup_setitem_neq {V : Type} (key key' : string) (v : V)
      (m : dict V) :
  key <> key' -> lookup key' (setitem key v m) = lookup key' m.
Proof.
  intros N. induction m as [|[k w] m IH]; simpl.
  - destruct (String.eqb_spec key key'); [contradiction | reflexivity].
  - destruct (String.eqb_spec k key) as [E|N1]; simpl.
    + subst. destruct (String.eqb_spec key key');
        [contradiction | reflexivity].
    + destruct (String.eqb_spec k key'); [reflexivity | exact IH].
Qed.

Lemma contains_setitem {V : Type} (key key' : string) (v : V) (m : dict V) :
  contains key' m = true -> contains key' (setitem key v m) = true.
Proof.
  unfold contains. destruct (String.eqb_spec key key') as [E|N].
  - subst. now rewrite lookup_setitem_eq.
  - now rewrite lookup_setitem_neq.
Qed.

Lemma validate_nested_dict (nested : dict json) (required : list string) :
  validate_nested (JDict nested) required = Returned tt
  <-> Forall (fun k => contains k nested = true) required.
Proof.
  induction required as [|k ks IH]; simpl.
  - split; [constructor | reflexivity].
  - destruct (contains k nested) eqn:C; simpl.
    + rewrite IH. split; [now constructor | intros F; now inversion F].
    + split; [discriminate | intros F; inversion F; congruence].
Qed.

Lemma validate_nested_cons (value : json) (k : string) (ks : list string) :
  validate_nested value (k :: ks) = Returned tt ->
  exists nested, value = JDict nested.
Proof. destruct value; simpl; try discriminate. intros _. now eexists. Qed.

Lemma validate_base_ok (config : dict json)
      (template : dict (option (list string))) :
  validate_base config template = Returned tt
  <-> Forall (fun kt => exists v, lookup (fst kt) config = Some v
                        /\ forall ks, snd kt = Some ks ->
                                      validate_nested v ks = Returned tt)
             template.
Proof.
  induction template as [|[k t] rest IH]; simpl.
  - split; [constructor | reflexivity].
  - destruct (lookup k config) as [v|] eqn:L.
    + destruct t as [ks|].
      * destruct (validate_nested v ks) as [[]|e] eqn:N.
        -- rewrite IH. split.
           ++ intros F. constructor; [|exact F]. exists v.
              split; [exact L|]. simpl. intros ks' E. now injection E as <-.
           ++ intros F. now inversion F.
        -- split; [discriminate|]. intros F. inversion F as [|? ? H _].
           destruct H as (v' & L' & H). simpl in L', H.
           rewrite L in L'. injection L' as <-.
           rewrite (H ks eq_refl) in N. discriminate.
      * rewrite IH. split.
        -- intros F. constructor; [|exact F]. exists v.
           split; [exact L|]. simpl. discriminate.
        -- intros F. now inversion F.
    + split; [discriminate|]. intros F. inversion F as [|? ? H _].
      destruct H as (v' & L' & _). simpl in L'. congruence.
Qed.

Lemma has_section_ok (config : dict json) (name k : string)
      (ks : list string) :
  has_section config name (k :: ks)
  <-> exists v, lookup name config = Some v
                /\ validate_nested v (k :: ks) = Returned tt.
Proof.
  unfold has_section. split.
  - intros (nested & L & F). exists (JDict nested).
    split; [exact L|]. now apply validate_nested_dict.
  - intros (v & L & N).
    destruct (validate_nested_cons _ _ _ N) as [nested ->].
    exists nested. split; [exact L|]. now apply validate_nested_dict.
Qed.

(** X17. [validate_json] returns exactly on the dictionaries that hold the
    key ["seed"] and the four sections ["evo"], ["net"], ["encoding"] and
    ["task"], each a dictionary with its required keys; the values of the
    keys and any further key play no role. *)
Theorem validate_json_accepts (config : json) :
  validate_json config = Returned tt
  <-> exists entries,
      config = JDict entries
      /\ contains "seed" entries = true
      /\ has_section entries "evo"
           ["strategy_name"; "n_generations"; "population_size";
            "n_evaluations"]
      /\ has_section entries "net" ["layer_dimensions"; "architecture"]
      /\ has_section entries "encoding" ["d"; "distance"; "type"]
      /\ has_section entries "task"
           ["environnment"; "maximize"; "episode_length"].
Proof.
  split.
  - destruct config; try (intros H; discriminate H).
    unfold validate_json. intros H.
    apply validate_base_ok in H. unfold base_template in H.
    inversion H as [|? ? Hseed H1]; subst; clear H.
    inversion H1 as [|? ? Hevo H2]; subst; clear H1.
    inversion H2 as [|? ? Hnet H3]; subst; clear H2.
    inversion H3 as [|? ? Henc H4]; subst; clear H3.
    inversion H4 as [|? ? Htask _]; subst; clear H4.
    exists entries. split; [reflexivity|].
    split; [apply contains_lookup; destruct Hseed as (v & L & _);
            now exists v|].
    repeat split; apply has_section_ok.
    + destruct Hevo as (v & L & N). exists v. split; [exact L|].
      now apply N.
    + destruct Hnet as (v & L & N). exists v. split; [exact L|].
      now apply N.
    + destruct Henc as (v & L & N). exists v. split; [exact L|].
      now apply N.
    + destruct Htask as (v & L & N). exists v. split; [exact L|].
      now apply N.
  - intros (entries & -> & Hseed & Hevo & Hnet & Henc & Htask).
    unfold validate_json. apply validate_base_ok. unfold base_template.
    apply contains_lookup in Hseed as [vs Ls].
    apply has_section_ok in Hevo as (v1 & L1 & N1).
    apply has_section_ok in Hnet as (v2 & L2 & N2).
    apply has_section_ok in Henc as (v3 & L3 & N3).
    apply has_section_ok in Htask as (v4 & L4 & N4).
    repeat constructor; simpl.
    + exists vs. split; [exact Ls | discriminate].
    + exists v1. split; [exact L1|]. intros ks E. now injection E as <-.
    + exists v2. split; [exact L2|]. intros ks E. now injection E as <-.
    + exists v3. split; [exact L3|]. intros ks E. now injection E as <-.
    + exists v4. split; [exact L4|]. intros ks E. now injection E as <-.
Qed.

Lemma validate_nested_setitem (nested : dict json) (k2 : string) (v : json)
      (ks : list string) :
  validate_nested (JDict nested) ks = Returned tt ->
  validate_nested (JDict (setitem k2 v nested)) ks = Returned tt.
Proof.
  rewrite !validate_nested_dict. intros F.
  apply Forall_forall. intros k Hk.
  apply contains_setitem. exact (proj1 (Forall_forall _ _) F k Hk).
Qed.

(** X18. Assignments keep a valid configuration valid: [config[k] = v] for a
    key [k] that is not one of the four sections (["group"], ["seed"],
    ...), and [config[k1][k2] = v] whenever it does not raise. *)
Theorem validate_json_assignments (entries : dict json) :
  validate_json (JDict entries) = Returned tt ->
  (forall k v,
      (forall ks, lookup k base_template <> Some (Some ks)) ->
      validate_json (JDict (setitem k v entries)) = Returned tt)
  /\ (forall k1 k2 v entries',
         set_subscript2 entries k1 k2 v = Ok entries' ->
         validate_json (JDict entries') = Returned tt).
Proof.
  unfold validate_json. intros H. apply validate_base_ok in H. split.
  - intros k v Hk. apply validate_base_ok.
    apply Forall_forall. intros [k' t] I.
    destruct (proj1 (Forall_forall _ _) H _ I) as (v' & L & N).
    simpl in L, N. simpl fst. simpl snd.
    destruct (String.eqb_spec k k') as [E|NE].
    + subst k'. exists v. split; [apply lookup_setitem_eq|].
      intros ks Et. subst t. exfalso. apply (Hk ks).
      clear -I. unfold base_template in *. simpl in I.
      repeat (destruct I as [I|I];
              [injection I as <- <-; reflexivity|]).
      contradiction.
    + exists v'. split; [now rewrite lookup_setitem_neq | exact N].
  - intros k1 k2 v entries' S. unfold set_subscript2 in S.
    destruct (lookup k1 entries) as [[| | | | | |nested]|] eqn:L1;
      try discriminate.
    injection S as <-. apply validate_base_ok.
    apply Forall_forall. intros [k' t] I.
    destruct (proj1 (Forall_forall _ _) H _ I) as (v' & L & N).
    simpl in L, N. simpl fst. simpl snd.
    destruct (String.eqb_spec k1 k') as [E|NE].
    + subst k'. rewrite L1 in L. injection L as <-.
      eexists. split; [apply lookup_setitem_eq|].
      intros ks Et. apply validate_nested_setitem. now apply N.
    + exists v'. split; [now rewrite lookup_setitem_neq | exact N].
Qed.

Lemma validate_base_app (config : dict json)
      (pre post : dict (option (list string))) :
  validate_base config pre = Returned tt ->
  validate_base config (pre ++ post) = validate_base config post.
Proof.
  induction pre as [|[k t] pre IH]; simpl; [reflexivity|].
  destruct (lookup k config) as [v|]; [|discriminate].
  destruct t as [ks|]; [|exact IH].
  destruct (validate_nested v ks) as [[]|e]; [exact IH | discriminate].
Qed.

Lemma validate_nested_app (nested : dict json) (ks1 ks2 : list string) :
  Forall (fun k => contains k nested = true) ks1 ->
  validate_nested (JDict nested) (ks1 ++ ks2)
  = validate_nested (JDict nested) ks2.
Proof.
  induction 1 as [|k ks1 Hk _ IH]; [reflexivity|].
  simpl app. cbn [validate_nested]. rewrite Hk. exact IH.
Qed.

(** X19. The first defect, in the order of the template, decides the
    exception: a missing key raises [ConfigFileIncomplete] for it at the
    base level; a section that is not a dictionary raises
    [AttributeError]; a section that lacks a required key raises
    [ConfigFileIncomplete] for the first such key, at the nested
    level. *)
Theorem validate_json_first_defect (entries : dict json)
        (pre post : dict (option (list string))) (k : string)
        (expected : option (list string)) :
  base_template = pre ++ (k, expected) :: post ->
  validate_base entries pre = Returned tt ->
  (lookup k entries = None ->
   validate_json (JDict entries) =
   Raised (ConfigFileIncomplete k base_level))
  /\ (forall v k2 ks,
         lookup k entries = Some v ->
         expected = Some (k2 :: ks) ->
         (forall nested, v <> JDict nested) ->
         validate_json (JDict entries) = Raised AttributeError)
  /\ (forall nested ks1 k2 ks2,
         lookup k entries = Some (JDict nested) ->
         expected = Some (ks1 ++ k2 :: ks2) ->
         Forall (fun k' => contains k' nested = true) ks1 ->
         contains k2 nested = false ->
         validate_json (JDict entries) =
         Raised (ConfigFileIncomplete k2 nested_level)).
Proof.
  intros T P. unfold validate_json. rewrite T, (validate_base_app _ _ _ P).
  cbn [validate_base]. split; [|split].
  - intros ->. reflexivity.
  - intros v k2 ks -> -> N.
    destruct v; try reflexivity. exfalso. now apply (N entries0).
  - intros nested ks1 k2 ks2 -> -> F C.
    rewrite (@validate_nested_app nested ks1 (k2 :: ks2) F).
    cbn [validate_nested].
    now rewrite C.
Qed.

(** X20. After a successful validation every access [config[k1][k2]] to a
    required key of a section finds its key: the size functions and the
    decoders raise no [KeyError] on [config["net"]["layer_dimensions"]],
    [config["encoding"]["d"]], [config["encoding"]["distance"]] and
    [config["encoding"]["type"]]. *)
Theorem validated_config_accesses (config : json) (k1 k2 : string)
        (ks : list string) :
  validate_json config = Returned tt ->
  In (k1, Some ks) base_template ->
  In k2 ks ->
  exists v, subscript2 config k1 k2 = Ok v.
Proof.
  intros H I1 I2. destruct config; try discriminate H.
  unfold validate_json in H. apply validate_base_ok in H.
  destruct (proj1 (Forall_forall _ _) H _ I1) as (v & L & N).
  simpl in L, N. specialize (N ks eq_refl).
  destruct ks as [|k ks']; [contradiction|].
  destruct (validate_nested_cons _ _ _ N) as [nested ->].
  apply validate_nested_dict in N.
  pose proof (proj1 (Forall_forall _ _) N k2 I2) as C.
  apply contains_lookup in C as [v2 L2].
  exists v2. unfold subscript2. now rewrite L, L2.
Qed.

(* ================================================================== *)
(** ** The best epochs of a run *)


Lemma In_combine_seq {T : Type} (l : list T) (k i : nat) (e : T) :
  In (i, e) (combine (seq k (length l)) l)
  <-> k <= i /\ nth_error l (i - k) = Some e.
Proof.
  revert k; induction l as [|x l IH]; intros k; simpl.
  - split; [contradiction|]. intros [_ H]. now destruct (i - k).
  - rewrite IH. split.
    + intros [H|[H1 H2]].
      * injection H as <- <-. rewrite Nat.sub_diag. split; [lia|reflexivity].
      * split; [lia|]. now replace (i - k) with (S (i - S k)) by lia.
    + intros [H1 H2]. destruct (Nat.eq_dec i k) as [->|N].
      * rewrite Nat.sub_diag in H2. injection H2 as <-. now left.
      * right. split; [lia|].
        now replace (i - k) with (S (i - S k)) in H2 by lia.
Qed.

Lemma In_enumerate {T : Type} (l : list T) (i : nat) (e : T) :
  In (i, e) (enumerate l) <-> nth_error l i = Some e.
Proof.
  unfold enumerate. rewrite In_combine_seq, Nat.sub_0_r.
  split; [tauto | intros H; split; [lia | exact H]].
Qed.

Lemma StronglySorted_app_inv {T : Type} (R : T -> T -> Prop)
      (l1 l2 : list T) :
  StronglySorted R (l1 ++ l2) ->
  StronglySorted R l1 /\ StronglySorted R l2
  /\ forall a b, In a l1 -> In b l2 -> R a b.
Proof.
  induction l1 as [|x l1 IH]; simpl; intros H.
  - repeat split; [constructor | exact H | contradiction].
  - inversion H as [|? ? S F]; subst.
    destruct (IH S) as (S1 & S2 & C).
    apply Forall_app in F as [F1 F2].
    repeat split; [now constructor | exact S2 |].
    intros a b [<-|Ia] Ib.
    + exact (proj1 (Forall_forall _ _) F2 b Ib).
    + now apply C.
Qed.

Lemma StronglySorted_snoc {T : Type} (R : T -> T -> Prop) (l : list T)
      (x : T) :
  StronglySorted R l -> Forall (fun a => R a x) l ->
  StronglySorted R (l ++ [x]).
Proof.
  induction 1 as [|y l S IH F]; intros Fx; simpl.
  - repeat constructor.
  - inversion Fx; subst. constructor; [now apply IH|].
    apply Forall_app. split; [exact F | now constructor].
Qed.

Lemma StronglySorted_rev {T : Type} (R : T -> T -> Prop) (l : list T) :
  StronglySorted R l -> StronglySorted (fun a b => R b a) (rev l).
Proof.
  induction 1 as [|x l S IH F]; simpl; [constructor|].
  apply StronglySorted_snoc; [exact IH|].
  apply Forall_forall. intros a Ia. apply in_rev in Ia.
  exact (proj1 (Forall_forall _ _) F a Ia).
Qed.

Lemma In_firstn {T : Type} (n : nat) (l : list T) (x : T) :
  In x (firstn n l) -> In x l.
Proof.
  intros H. rewrite <- (firstn_skipn n l). apply in_or_app. now left.
Qed.

Section BestEpochsFacts.
Variable V : Type.
Variable lt : V -> V -> bool.
Variable plus : V -> V -> V.
Variable zero : V.

Lemma insort_perm {X : Type} (key : X -> V) (x : X) (l : list X) :
  Permutation (insort lt key x l) (x :: l).
Proof.
  induction l as [|y l IH]; simpl; [reflexivity|].
  destruct (lt (key x) (key y)); [reflexivity|].
  rewrite IH. apply perm_swap.
Qed.

Lemma sorted_perm {X : Type} (key : X -> V) (l : list X) :
  Permutation (sorted lt key l) l.
Proof.
  unfold sorted.
  enough (G : forall acc, Permutation
                            (fold_left (fun a x => insort lt key x a) l acc)
                            (acc ++ l)) by apply (G []).
  induction l as [|x l IH]; intros acc; simpl.
  - now rewrite app_nil_r.
  - rewrite IH, insort_perm. apply Permutation_middle.
Qed.

Lemma filtered_metrics_In (h : list (history_row V)) (e : epoch_row V) :
  In e (filtered_metrics h)
  <-> nth_error h (epoch_i e) = Some (epoch_row_of e)
      /\ reference_metric (epoch_row_of e) = Some (epoch_metric e).
Proof.
  unfold filtered_metrics. rewrite in_flat_map. split.
  - intros ([i r] & I & H). apply In_enumerate in I.
    destruct (reference_metric r) as [v|] eqn:M; [|contradiction].
    destruct H as [<-|[]]. simpl. now split.
  - intros [N M]. exists (epoch_i e, epoch_row_of e).
    split; [now apply In_enumerate|]. rewrite M. left.
    now destruct e.
Qed.

Lemma filtered_metrics_ids (l : list (history_row V)) (k : nat) :
  let ids := map (@epoch_i V)
                 (flat_map (fun '(i, e) =>
                              match reference_metric e with
                              | Some v => [{| epoch_i := i;
                                              epoch_metric := v;
                                              epoch_row_of := e |}]
                              | None => []
                              end)
                           (combine (seq k (length l)) l)) in
  NoDup ids /\ Forall (fun i => k <= i) ids
  /\ length ids = length (filter has_metric l).
Proof.
  revert k; induction l as [|r l IH]; intros k; simpl.
  - repeat split; constructor.
  - destruct (IH (S k)) as (N & F & L). unfold has_metric at 1.
    destruct (reference_metric r) as [v|]; simpl.
    + repeat split.
      * constructor; [|exact N]. intros I.
        pose proof (proj1 (Forall_forall _ _) F k I) as H.
        simpl in H. lia.
      * constructor; [lia|]. eapply Forall_impl; [|exact F].
        simpl. intros; lia.
      * now rewrite L.
    + repeat split; [exact N | | exact L].
      eapply Forall_impl; [|exact F]. simpl. intros; lia.
Qed.

Lemma best_epochs_ids (h : list (history_row V)) (k : nat) :
  get_k_best_genome_ids lt plus zero h k =
  firstn k (map (@epoch_i V)
                (rev (sorted lt (@epoch_metric V) (filtered_metrics h)))).
Proof.
  unfold get_k_best_genome_ids, get_k_best_epoch_metrics.
  now rewrite <- firstn_map, map_map.
Qed.

(** X21. [get_k_best_epoch_metrics] returns [k] entries, or as many as the
    history has rows with a reference metric; every entry is a row of the
    history, at the index it carries, with its reference metric and with
    the sum of its three network properties; no epoch is returned
    twice. *)
Theorem best_epochs_entries (h : list (history_row V)) (k : nat) :
  length (get_k_best_epoch_metrics lt plus zero h k) =
  Nat.min k (length (filter has_metric h))
  /\ (forall e total,
         In (e, total) (get_k_best_epoch_metrics lt plus zero h k) ->
         nth_error h (epoch_i e) = Some (epoch_row_of e)
         /\ reference_metric (epoch_row_of e) = Some (epoch_metric e)
         /\ total =
            plus (plus (plus zero (f_expressivity (epoch_row_of e)))
                       (f_input_restoration (epoch_row_of e)))
                 (f_weight_distribution (epoch_row_of e)))
  /\ NoDup (get_k_best_genome_ids lt plus zero h k).
Proof.
  pose proof (sorted_perm (@epoch_metric V) (filtered_metrics h)) as P.
  destruct (filtered_metrics_ids h 0) as (N & _ & L).
  fold (enumerate h) in N, L. fold (filtered_metrics h) in N, L.
  rewrite length_map in L.
  split; [|split].
  - unfold get_k_best_epoch_metrics.
    rewrite length_firstn, length_map, length_rev.
    now rewrite (Permutation_length P), L.
  - intros e total I. unfold get_k_best_epoch_metrics in I.
    apply In_firstn in I. apply in_map_iff in I as (e' & E & I).
    injection E as -> <-. apply in_rev in I.
    apply (Permutation_in _ P) in I. apply filtered_metrics_In in I.
    destruct I as [I1 I2]. repeat split; assumption.
  - rewrite best_epochs_ids.
    assert (N' : NoDup (map (@epoch_i V)
                   (rev (sorted lt (@epoch_metric V) (filtered_metrics h))))).
    { apply (Permutation_NoDup (l := map (@epoch_i V) (filtered_metrics h)));
        [|exact N].
      apply Permutation_map. rewrite <- Permutation_rev. now symmetry. }
    rewrite <- (firstn_skipn k) in N'. now apply NoDup_app_remove_r in N'.
Qed.

Hypothesis lt_trans :
  forall x y z, lt x y = true -> lt y z = true -> lt x z = true.
Hypothesis lt_asym : forall x y, lt x y = true -> lt y x = false.

Lemma insort_stable (P : V -> Prop) (x : epoch_row V)
      (l : list (epoch_row V)) :
  (forall u v w, P u -> P v -> P w ->
                 lt u w = true -> lt u v = true \/ lt v w = true) ->
  Forall (fun a => P (epoch_metric a)) (x :: l) ->
  Forall (fun a => epoch_i a < epoch_i x) l ->
  StronglySorted (ascending_stable lt) l ->
  StronglySorted (ascending_stable lt) (insort lt (@epoch_metric V) x l).
Proof.
  intros NT FP FI S. inversion FP as [|? ? Px FPl]; subst.
  induction S as [|y l S IH F]; simpl; [repeat constructor|].
  inversion FPl as [|? ? Py FPl']; subst.
  inversion FI as [|? ? Iy FI']; subst.
  destruct (lt (epoch_metric x) (epoch_metric y)) eqn:C.
  - constructor; [now constructor|].
    constructor.
    + split; [now apply lt_asym | congruence].
    + apply Forall_forall. intros b Ib.
      destruct (proj1 (Forall_forall _ _) F b Ib) as [Hb _].
      pose proof (proj1 (Forall_forall _ _) FPl' b Ib) as Pb. simpl in Pb.
      split.
      * destruct (lt (epoch_metric b) (epoch_metric x)) eqn:D;
          [|reflexivity].
        now rewrite (lt_trans D C) in Hb.
      * destruct (NT _ (epoch_metric b) _ Px Pb Py C) as [H|H];
          congruence.
  - constructor; [apply IH; assumption || now constructor|].
    apply Forall_forall. intros b Ib.
    apply (Permutation_in _ (insort_perm (@epoch_metric V) x l)) in Ib.
    destruct Ib as [<-|Ib].
    + split; [exact C | intros _; exact Iy].
    + exact (proj1 (Forall_forall _ _) F b Ib).
Qed.

Lemma sorted_stable (P : V -> Prop) (l : list (epoch_row V)) :
  (forall u v w, P u -> P v -> P w ->
                 lt u w = true -> lt u v = true \/ lt v w = true) ->
  Forall (fun a => P (epoch_metric a)) l ->
  StronglySorted (fun a b => epoch_i a < epoch_i b) l ->
  StronglySorted (ascending_stable lt) (sorted lt (@epoch_metric V) l).
Proof.
  intros NT. unfold sorted.
  enough (G : forall acc,
             Forall (fun a => P (epoch_metric a)) acc ->
             Forall (fun a => P (epoch_metric a)) l ->
             Forall (fun a => Forall (fun x => epoch_i a < epoch_i x) l)
                    acc ->
             StronglySorted (fun a b => epoch_i a < epoch_i b) l ->
             StronglySorted (ascending_stable lt) acc ->
             StronglySorted (ascending_stable lt)
               (fold_left (fun a x => insort lt (@epoch_metric V) x a)
                          l acc))
    by (intros FP SI; apply G; try assumption; constructor).
  induction l as [|x l IH]; intros acc PA PL FA SI SA; simpl; [exact SA|].
  inversion PL as [|? ? Px PL']; subst.
  inversion SI as [|? ? SI' Fx]; subst.
  assert (Pm : Permutation (insort lt (@epoch_metric V) x acc) (x :: acc))
    by apply insort_perm.
  apply IH; try assumption.
  - apply Forall_forall. intros a Ia. apply (Permutation_in _ Pm) in Ia.
    destruct Ia as [<-|Ia]; [exact Px|].
    exact (proj1 (Forall_forall _ _) PA a Ia).
  - apply Forall_forall. intros a Ia. apply (Permutation_in _ Pm) in Ia.
    destruct Ia as [<-|Ia]; [exact Fx|].
    pose proof (proj1 (Forall_forall _ _) FA a Ia) as H.
    now inversion H.
  - apply (insort_stable P); try assumption.
    + now constructor.
    + apply Forall_forall. intros a Ia.
      pose proof (proj1 (Forall_forall _ _) FA a Ia) as H.
      now inversion H.
Qed.

Lemma filtered_metrics_increasing (l : list (history_row V)) (k : nat) :
  let rows := flat_map (fun '(i, e) =>
                          match reference_metric e with
                          | Some v => [{| epoch_i := i;
                                          epoch_metric := v;
                                          epoch_row_of := e |}]
                          | None => []
                          end)
                       (combine (seq k (length l)) l) in
  StronglySorted (fun a b => epoch_i a < epoch_i b) rows
  /\ Forall (fun a => k <= epoch_i a) rows.
Proof.
  revert k; induction l as [|r l IH]; intros k; simpl.
  - split; constructor.
  - destruct (IH (S k)) as [Hs F].
    assert (F' : Forall (fun a : epoch_row V => k <= epoch_i a)
                   (flat_map (fun '(i, e) =>
                                match reference_metric e with
                                | Some v => [{| epoch_i := i;
                                                epoch_metric := v;
                                                epoch_row_of := e |}]
                                | None => []
                                end)
                             (combine (seq (S k) (length l)) l)))
      by (eapply Forall_impl; [|exact F]; simpl; intros; lia).
    destruct (reference_metric r) as [v|]; simpl.
    + split.
      * constructor; [exact Hs|]. eapply Forall_impl; [|exact F].
        simpl. intros; lia.
      * constructor; [simpl; lia | exact F'].
    + split; [exact Hs | exact F'].
Qed.

Lemma filtered_metrics_logged (h : list (history_row V)) :
  Forall (fun a => logged h (epoch_metric a)) (filtered_metrics h).
Proof.
  apply Forall_forall. intros e I. apply filtered_metrics_In in I as [N M].
  exists (epoch_row_of e). split; [|exact M].
  now apply nth_error_In with (n := epoch_i e).
Qed.

(** X22. When [<] is transitive and asymmetric and the logged reference
    metrics are comparable (none behaves like a NaN), the entries come in
    decreasing order of the reference metric, epochs of equal metric
    latest first, and they are the best ones: no epoch left out has a
    greater reference metric than a returned one. *)
Theorem best_epochs_are_best (h : list (history_row V)) (k : nat) :
  comparable_metrics lt h ->
  StronglySorted
    (fun a b =>
       lt (epoch_metric (fst a)) (epoch_metric (fst b)) = false
       /\ (lt (epoch_metric (fst b)) (epoch_metric (fst a)) = false ->
           epoch_i (fst b) < epoch_i (fst a)))
    (get_k_best_epoch_metrics lt plus zero h k)
  /\ forall j row v e total,
       nth_error h j = Some row ->
       reference_metric row = Some v ->
       ~ In j (get_k_best_genome_ids lt plus zero h k) ->
       In (e, total) (get_k_best_epoch_metrics lt plus zero h k) ->
       lt (epoch_metric e) v = false.
Proof.
  intros CM.
  set (S := sorted lt (@epoch_metric V) (filtered_metrics h)).
  assert (A : StronglySorted (ascending_stable lt) S).
  { apply (sorted_stable (logged h)).
    - exact CM.
    - apply filtered_metrics_logged.
    - apply (filtered_metrics_increasing h 0). }
  apply (@StronglySorted_rev _ (ascending_stable lt)) in A.
  rewrite <- (firstn_skipn k (rev S)) in A.
  apply StronglySorted_app_inv in A as (D1 & _ & D2).
  split.
  - unfold get_k_best_epoch_metrics. fold S. rewrite firstn_map.
    clear D2. induction D1 as [|a l _ IH F]; simpl; constructor.
    + exact IH.
    + apply Forall_map. exact F.
  - intros j row v e total Hj Hv NI I.
    unfold get_k_best_epoch_metrics in I. fold S in I.
    rewrite firstn_map in I. apply in_map_iff in I as (e' & E & I).
    injection E as -> _.
    set (ej := {| epoch_i := j; epoch_metric := v; epoch_row_of := row |}).
    change v with (epoch_metric ej). apply D2; [exact I|].
    assert (Ij : In ej (rev S)).
    { apply in_rev. rewrite rev_involutive.
      apply (Permutation_in _ (Permutation_sym (sorted_perm _ _))).
      apply filtered_metrics_In. now split. }
    rewrite <- (firstn_skipn k (rev S)) in Ij.
    apply in_app_or in Ij as [Ij|Ij]; [|exact Ij].
    exfalso. apply NI. rewrite best_epochs_ids. fold S.
    rewrite firstn_map. apply in_map_iff. now exists ej.
Qed.

End BestEpochsFacts.

(* ================================================================== *)
(** ** The properties above on the sample inputs *)

Lemma gene_decoding_length_contract_witness :
  gene_enc_genome_size sample_cfg = Ok 6
  /\ (gene_decoding sample_table [1; 2; 3] sample_cfg = Err AssertionError
      <-> length [1; 2; 3] <> 6).
Proof.
  assert (Hs : gene_enc_genome_size sample_cfg = Ok 6) by reflexivity.
  split; [exact Hs|].
  exact (@gene_decoding_length_contract nat sample_table sample_cfg
           [1; 2; 3] 6 Hs).
Defined.

Lemma direct_decoding_ignores_tail_witness :
  let cfg := mk_config [1; 1] 1 "L2" "direct" in
  direct_enc_genome_size cfg <= length [1; 2; 3]
  /\ (exists m, direct_decoding [1; 2; 3] cfg = Ok m)
  /\ direct_decoding [1; 2; 3] cfg = direct_decoding [1; 2] cfg.
Proof.
  intros cfg.
  assert (H : direct_enc_genome_size cfg <= length [1; 2; 3])
    by (unfold direct_enc_genome_size, sum; simpl; lia).
  split; [exact H|].
  exact (@direct_decoding_ignores_tail nat cfg [1; 2; 3] H).
Defined.

Lemma direct_decoding_layout_witness :
  length sample_genome = direct_enc_genome_size sample_cfg
  /\ 0 < length (layer_dimensions (net sample_cfg)) - 1
  /\ 0 < nth 1 (layer_dimensions (net sample_cfg)) 0
  /\ exists m w b,
      direct_decoding sample_genome sample_cfg = Ok m
      /\ nth_error m 0 =
         Some (Dense 0, [("kernel", Matrix w); ("bias", Vector b)])
      /\ (1 < 2 -> nth 0 (nth 1 w []) 0 = nth (0 + 1 * 2 + 0) sample_genome 0)
      /\ nth 0 b 0 = nth (4 + 0 + 0) sample_genome 0.
Proof.
  assert (H : length sample_genome = direct_enc_genome_size sample_cfg)
    by reflexivity.
  assert (Hi : 0 < length (layer_dimensions (net sample_cfg)) - 1)
    by (simpl; lia).
  assert (Ht : 0 < nth 1 (layer_dimensions (net sample_cfg)) 0)
    by (simpl; lia).
  split; [exact H|]. split; [exact Hi|]. split; [exact Ht|].
  exact (@direct_decoding_layout nat sample_cfg sample_genome 0 1 0 0
           H Hi Ht).
Defined.

Lemma direct_decoding_injective_witness :
  length sample_genome = direct_enc_genome_size sample_cfg
  /\ direct_decoding sample_genome sample_cfg =
     direct_decoding [0; 5; 10; 15; 1; 2] sample_cfg
  /\ sample_genome = [0; 5; 10; 15; 1; 2].
Proof.
  assert (H : length sample_genome = direct_enc_genome_size sample_cfg)
    by reflexivity.
  assert (E : direct_decoding sample_genome sample_cfg =
              direct_decoding [0; 5; 10; 15; 1; 2] sample_cfg)
    by reflexivity.
  split; [exact H|]. split; [exact E|].
  exact (@direct_decoding_injective nat sample_cfg sample_genome
           [0; 5; 10; 15; 1; 2] H H E).
Defined.

Lemma gene_decoding_kernel_entry_witness :
  valid_topology (layer_dimensions (net sample_cfg))
  /\ gene_enc_genome_size sample_cfg = Ok (length sample_genome)
  /\ sample_table (enc_distance (encoding sample_cfg)) = Some sample_metric
  /\ 0 < length (layer_dimensions (net sample_cfg)) - 1
  /\ 0 < nth 0 (layer_dimensions (net sample_cfg)) 0
  /\ 1 < nth 1 (layer_dimensions (net sample_cfg)) 0
  /\ exists m w b,
      gene_decoding sample_table sample_genome sample_cfg = Ok m
      /\ nth_error m 0 =
         Some (Dense 0, [("kernel", Matrix w); ("bias", Vector b)])
      /\ nth 1 (nth 0 w []) 0 = sample_metric [0] [15].
Proof.
  assert (V : valid_topology (layer_dimensions (net sample_cfg)))
    by (split; simpl; [lia | repeat constructor]).
  assert (Hg : gene_enc_genome_size sample_cfg = Ok (length sample_genome))
    by reflexivity.
  assert (HD : sample_table (enc_distance (encoding sample_cfg))
               = Some sample_metric) by reflexivity.
  assert (Hi : 0 < length (layer_dimensions (net sample_cfg)) - 1)
    by (simpl; lia).
  assert (Hs : 0 < nth 0 (layer_dimensions (net sample_cfg)) 0)
    by (simpl; lia).
  assert (Ht : 1 < nth 1 (layer_dimensions (net sample_cfg)) 0)
    by (simpl; lia).
  split; [exact V|]. split; [exact Hg|]. split; [exact HD|].
  split; [exact Hi|]. split; [exact Hs|]. split; [exact Ht|].
  exact (@gene_decoding_kernel_entry nat sample_table sample_cfg
           sample_genome sample_metric 0 0 1 0 V Hg HD Hi Hs Ht).
Defined.

Lemma gene_decoding_unknown_distance_witness :
  valid_topology (layer_dimensions (net sample_cfg))
  /\ gene_enc_genome_size sample_cfg = Ok (length sample_genome)
  /\ (gene_decoding (fun _ => None) sample_genome sample_cfg = Err KeyError
      <-> (fun _ : string => @None (list nat -> list nat -> nat))
            (enc_distance (encoding sample_cfg)) = None)
  /\ gene_decoding (fun _ => None) sample_genome sample_cfg = Err KeyError.
Proof.
  assert (V : valid_topology (layer_dimensions (net sample_cfg)))
    by (split; simpl; [lia | repeat constructor]).
  assert (Hg : gene_enc_genome_size sample_cfg = Ok (length sample_genome))
    by reflexivity.
  destruct (@gene_decoding_unknown_distance nat (fun _ => None) sample_cfg
              sample_genome V Hg) as [I _].
  split; [exact V|]. split; [exact Hg|]. split; [exact I|].
  apply I. reflexivity.
Defined.

Lemma decoders_same_biases_witness :
  valid_topology (layer_dimensions (net sample_cfg))
  /\ length sample_genome = direct_enc_genome_size sample_cfg
  /\ gene_enc_genome_size sample_cfg = Ok (length sample_genome)
  /\ sample_table (enc_distance (encoding sample_cfg)) = Some sample_metric
  /\ skipn (weight_offset [2; 2] 1) sample_genome =
     skipn (sum [2; 2] * 1) sample_genome
  /\ exists md mg,
      direct_decoding sample_genome sample_cfg = Ok md
      /\ gene_decoding sample_table sample_genome sample_cfg = Ok mg
      /\ forall i, i < 1 ->
           exists wd wg b,
             nth_error md i =
             Some (Dense i, [("kernel", Matrix wd); ("bias", Vector b)])
             /\ nth_error mg i =
                Some (Dense i, [("kernel", Matrix wg); ("bias", Vector b)]).
Proof.
  assert (V : valid_topology (layer_dimensions (net sample_cfg)))
    by (split; simpl; [lia | repeat constructor]).
  assert (Hd : length sample_genome = direct_enc_genome_size sample_cfg)
    by reflexivity.
  assert (Hg : gene_enc_genome_size sample_cfg = Ok (length sample_genome))
    by reflexivity.
  assert (HD : sample_table (enc_distance (encoding sample_cfg))
               = Some sample_metric) by reflexivity.
  assert (HB : skipn (weight_offset [2; 2] 1) sample_genome =
               skipn (sum [2; 2] * 1) sample_genome) by reflexivity.
  split; [exact V|]. split; [exact Hd|]. split; [exact Hg|].
  split; [exact HD|]. split; [exact HB|].
  exact (@decoders_same_biases nat sample_table sample_cfg sample_genome
           sample_genome sample_metric V Hd Hg HD HB).
Defined.

Lemma encoding_tables_fit_witness :
  valid_topology (layer_dimensions (net sample_cfg))
  /\ sample_table (enc_distance (encoding sample_cfg)) = Some sample_metric
  /\ Encoding_size_function (enc_type (encoding sample_cfg))
     = Some gene_enc_genome_size
  /\ gene_enc_genome_size sample_cfg = Ok (length sample_genome)
  /\ (forall key, Encoding_size_function key = None
                  <-> Encoding_function sample_table key = None)
  /\ exists m, genome_to_model sample_table sample_genome sample_cfg = Ok m
               /\ well_shaped [2; 2] m.
Proof.
  assert (V : valid_topology (layer_dimensions (net sample_cfg)))
    by (split; simpl; [lia | repeat constructor]).
  assert (HD : sample_table (enc_distance (encoding sample_cfg))
               = Some sample_metric) by reflexivity.
  assert (HS : Encoding_size_function (enc_type (encoding sample_cfg))
               = Some gene_enc_genome_size) by reflexivity.
  assert (Hg : gene_enc_genome_size sample_cfg = Ok (length sample_genome))
    by reflexivity.
  split; [exact V|]. split; [exact HD|]. split; [exact HS|].
  split; [exact Hg|].
  exact (@encoding_tables_fit nat sample_table sample_cfg sample_genome
           sample_metric gene_enc_genome_size V HD HS Hg).
Defined.

Lemma empty_topology_witness :
  let cfg := mk_config [] 1 "L2" "gene" in
  layer_dimensions (net cfg) = []
  /\ gene_enc_genome_size cfg = Err IndexError
  /\ gene_decoding sample_table [1; 2] cfg = Err IndexError
  /\ direct_enc_genome_size cfg = 0
  /\ direct_decoding [1; 2] cfg = Ok [].
Proof.
  intros cfg. split; [reflexivity|].
  exact (@empty_topology nat sample_table cfg [1; 2] eq_refl).
Defined.

Lemma gene_size_le_direct_size_witness :
  let cfg := mk_config [4; 6; 4] 2 "L2" "gene" in
  2 <= length (layer_dimensions (net cfg))
  /\ Forall (fun n => 2 * enc_d (encoding cfg) <= n)
            (layer_dimensions (net cfg))
  /\ exists size, gene_enc_genome_size cfg = Ok size
                  /\ size <= direct_enc_genome_size cfg.
Proof.
  intros cfg.
  assert (L : 2 <= length (layer_dimensions (net cfg))) by (simpl; lia).
  assert (F : Forall (fun n => 2 * enc_d (encoding cfg) <= n)
                     (layer_dimensions (net cfg)))
    by (repeat constructor; simpl; lia).
  split; [exact L|]. split; [exact F|].
  exact (@gene_size_le_direct_size cfg L F).
Defined.

Lemma get_env_sizes_registered_witness :
  In "ant" (keys brax_envs)
  /\ _get_env_sizes "ant" =
     Ok {| observation_space := 67; action_space := 8 |}
  /\ ~ In "cartpole" (keys brax_envs)
  /\ _get_env_sizes "cartpole" = Err ValueError.
Proof.
  destruct (get_env_sizes_registered "ant") as [Hin _].
  destruct (get_env_sizes_registered "cartpole") as [_ Hout].
  assert (I : In "ant" (keys brax_envs)) by (simpl; tauto).
  assert (N : ~ In "cartpole" (keys brax_envs))
    by (simpl; intros H;
        repeat (destruct H as [H|H]; [discriminate H|]); exact H).
  split; [exact I|]. split; [reflexivity|]. split; [exact N|].
  exact (Hout N).
Defined.

Lemma fix_config_file_layers_witness :
  _get_env_sizes (chosen_env sample_policy_cfg (Some "hopper")) =
  Ok {| observation_space := 11; action_space := 3 |}
  /\ layer_dimensions (net sample_policy_cfg) = 1 :: [8; 8] ++ [1]
  /\ exists fixed,
      fix_config_file sample_policy_cfg (Some "hopper") = Ok fixed
      /\ layer_dimensions (net fixed) = [11; 8; 8; 3]
      /\ length (layer_dimensions (net fixed)) = 4
      /\ architecture (net fixed) = architecture (net sample_policy_cfg)
      /\ seed fixed = seed sample_policy_cfg
      /\ evo fixed = evo sample_policy_cfg
      /\ encoding fixed = encoding sample_policy_cfg
      /\ task fixed = task sample_policy_cfg.
Proof.
  assert (Hs : _get_env_sizes (chosen_env sample_policy_cfg (Some "hopper"))
               = Ok {| observation_space := 11; action_space := 3 |})
    by reflexivity.
  assert (Hd : layer_dimensions (net sample_policy_cfg) = 1 :: [8; 8] ++ [1])
    by reflexivity.
  split; [exact Hs|]. split; [exact Hd|].
  exact (@fix_config_file_layers sample_policy_cfg (Some "hopper")
           _ 1 1 [8; 8] Hs Hd).
Defined.

Lemma fix_config_file_edges_witness :
  ~ In (chosen_env sample_policy_cfg None) (keys brax_envs)
  /\ fix_config_file sample_policy_cfg None = Err ValueError
  /\ fix_config_file (mk_config [] 1 "L2" "direct") (Some "hopper")
     = Err IndexError
  /\ fix_config_file (mk_config [5] 1 "L2" "direct") (Some "hopper")
     = Ok (mk_config [3] 1 "L2" "direct").
Proof.
  assert (N : ~ In (chosen_env sample_policy_cfg None) (keys brax_envs))
    by (simpl; intros H;
        repeat (destruct H as [H|H]; [discriminate H|]); exact H).
  assert (Hs : forall cfg, _get_env_sizes (chosen_env cfg (Some "hopper"))
                           = Ok {| observation_space := 11;
                                   action_space := 3 |})
    by reflexivity.
  split; [exact N|]. split.
  - exact (proj1 (fix_config_file_edges sample_policy_cfg None) N).
  - split.
    + exact (proj1 (proj2 (fix_config_file_edges
                             (mk_config [] 1 "L2" "direct") (Some "hopper"))
                          _ (Hs _)) eq_refl).
    + exact (proj2 (proj2 (fix_config_file_edges
                             (mk_config [5] 1 "L2" "direct") (Some "hopper"))
                          _ (Hs _)) 5 eq_refl).
Defined.

Lemma fix_config_file_idempotent_witness :
  fix_config_file sample_policy_cfg (Some "hopper") =
  Ok (mk_config [11; 8; 8; 3] 3 "pL2" "direct")
  /\ chosen_env (mk_config [11; 8; 8; 3] 3 "pL2" "direct") (Some "hopper")
     = chosen_env sample_policy_cfg (Some "hopper")
  /\ fix_config_file (mk_config [11; 8; 8; 3] 3 "pL2" "direct")
                     (Some "hopper") =
     Ok (mk_config [11; 8; 8; 3] 3 "pL2" "direct").
Proof.
  assert (H : fix_config_file sample_policy_cfg (Some "hopper") =
              Ok (mk_config [11; 8; 8; 3] 3 "pL2" "direct"))
    by reflexivity.
  assert (He : chosen_env (mk_config [11; 8; 8; 3] 3 "pL2" "direct")
                          (Some "hopper")
               = chosen_env sample_policy_cfg (Some "hopper"))
    by reflexivity.
  split; [exact H|]. split; [exact He|].
  exact (@fix_config_file_idempotent sample_policy_cfg _ (Some "hopper")
           (Some "hopper") H He).
Defined.

Lemma fix_config_file_then_decode_witness :
  _get_env_sizes (chosen_env sample_policy_cfg (Some "hopper")) =
  Ok {| observation_space := 11; action_space := 3 |}
  /\ layer_dimensions (net sample_policy_cfg) = 1 :: [8; 8] ++ [1]
  /\ Forall (fun n => 0 < n) [8; 8]
  /\ exists fixed,
      fix_config_file sample_policy_cfg (Some "hopper") = Ok fixed
      /\ valid_topology (layer_dimensions (net fixed))
      /\ forall genome : list nat,
           length genome = direct_enc_genome_size fixed ->
           exists m w0 b0 w b,
             direct_decoding genome fixed = Ok m
             /\ length m = 3
             /\ nth_error m 0 =
                Some (Dense 0, [("kernel", Matrix w0); ("bias", Vector b0)])
             /\ length w0 = 11
             /\ nth_error m 2 =
                Some (Dense 2, [("kernel", Matrix w); ("bias", Vector b)])
             /\ length b = 3.
Proof.
  assert (Hs : _get_env_sizes (chosen_env sample_policy_cfg (Some "hopper"))
               = Ok {| observation_space := 11; action_space := 3 |})
    by reflexivity.
  assert (Hd : layer_dimensions (net sample_policy_cfg) = 1 :: [8; 8] ++ [1])
    by reflexivity.
  assert (Hh : Forall (fun n => 0 < n) [8; 8])
    by (repeat constructor).
  split; [exact Hs|]. split; [exact Hd|]. split; [exact Hh|].
  exact (@fix_config_file_then_decode nat sample_policy_cfg (Some "hopper")
           _ 1 1 [8; 8] Hs Hd Hh).
Defined.

Lemma base_to_task_fixed_witness :
  base_to_task sample_policy_cfg "ant" 1000 =
  Ok (with_n_generations
        (with_environnment (mk_config [67; 8; 8; 8] 3 "pL2" "direct") "ant")
        1000)
  /\ fix_config_file
       (with_n_generations
          (with_environnment (mk_config [67; 8; 8; 8] 3 "pL2" "direct")
                             "ant") 1000) None =
     Ok (with_n_generations
           (with_environnment (mk_config [67; 8; 8; 8] 3 "pL2" "direct")
                              "ant") 1000)
  /\ (base_to_task sample_policy_cfg "cartpole" 1000 = Err ValueError
      <-> fix_config_file sample_policy_cfg (Some "cartpole")
          = Err ValueError).
Proof.
  destruct (base_to_task_fixed sample_policy_cfg "ant" 1000) as [_ Hok].
  destruct (base_to_task_fixed sample_policy_cfg "cartpole" 1000)
    as [Herr _].
  assert (H : base_to_task sample_policy_cfg "ant" 1000 =
              Ok (with_n_generations
                    (with_environnment
                       (mk_config [67; 8; 8; 8] 3 "pL2" "direct") "ant")
                    1000)) by reflexivity.
  split; [exact H|]. split.
  - exact (proj2 (proj2 (proj2 (proj2 (Hok _ H))))).
  - exact (Herr ValueError).
Defined.

Lemma validate_json_accepts_witness :
  validate_json (JDict sample_json_entries) = Returned tt
  /\ has_section sample_json_entries "encoding" ["d"; "distance"; "type"].
Proof.
  assert (H : validate_json (JDict sample_json_entries) = Returned tt)
    by reflexivity.
  split; [exact H|].
  destruct (proj1 (validate_json_accepts (JDict sample_json_entries)) H)
    as (entries & E & _ & _ & _ & Henc & _).
  injection E as <-. exact Henc.
Defined.

Lemma validate_json_assignments_witness :
  validate_json (JDict sample_json_entries) = Returned tt
  /\ validate_json (JDict (setitem "group" (JStr "pL2") sample_json_entries))
     = Returned tt
  /\ forall entries',
       set_subscript2 sample_json_entries "encoding" "distance" (JStr "")
       = Ok entries' ->
       validate_json (JDict entries') = Returned tt.
Proof.
  assert (H : validate_json (JDict sample_json_entries) = Returned tt)
    by reflexivity.
  destruct (validate_json_assignments sample_json_entries H) as [Ht Hn].
  split; [exact H|]. split.
  - apply Ht. intros ks E. discriminate E.
  - intros entries'. apply Hn.
Defined.

Lemma validate_json_first_defect_witness :
  base_template =
  [("seed", None);
   ("evo", Some ["strategy_name"; "n_generations"; "population_size";
                 "n_evaluations"])]
    ++ ("net", Some ["layer_dimensions"; "architecture"])
    :: [("encoding", Some ["d"; "distance"; "type"]);
        ("task", Some ["environnment"; "maximize"; "episode_length"])]
  /\ validate_base sample_json_no_net
       [("seed", None);
        ("evo", Some ["strategy_name"; "n_generations"; "population_size";
                      "n_evaluations"])] = Returned tt
  /\ lookup "net" sample_json_no_net = None
  /\ validate_json (JDict sample_json_no_net) =
     Raised (ConfigFileIncomplete "net" base_level).
Proof.
  pose proof (@validate_json_first_defect sample_json_no_net
                [("seed", None);
                 ("evo", Some ["strategy_name"; "n_generations";
                               "population_size"; "n_evaluations"])]
                [("encoding", Some ["d"; "distance"; "type"]);
                 ("task", Some ["environnment"; "maximize";
                                "episode_length"])]
                "net" (Some ["layer_dimensions"; "architecture"])
                eq_refl eq_refl) as [H _].
  split; [reflexivity|]. split; [reflexivity|]. split; [reflexivity|].
  exact (H eq_refl).
Defined.

Lemma validated_config_accesses_witness :
  validate_json (JDict sample_json_entries) = Returned tt
  /\ In ("net", Some ["layer_dimensions"; "architecture"]) base_template
  /\ In "layer_dimensions" ["layer_dimensions"; "architecture"]
  /\ exists v, subscript2 (JDict sample_json_entries) "net" "layer_dimensions"
               = Ok v.
Proof.
  assert (H : validate_json (JDict sample_json_entries) = Returned tt)
    by reflexivity.
  assert (I1 : In ("net", Some ["layer_dimensions"; "architecture"])
                  base_template) by (simpl; tauto).
  assert (I2 : In "layer_dimensions" ["layer_dimensions"; "architecture"])
    by (simpl; tauto).
  split; [exact H|]. split; [exact I1|]. split; [exact I2|].
  exact (@validated_config_accesses (JDict sample_json_entries) "net"
           "layer_dimensions" _ H I1 I2).
Defined.

Lemma Z_ltb_trans (x y z : Z) :
  Z.ltb x y = true -> Z.ltb y z = true -> Z.ltb x z = true.
Proof. rewrite !Z.ltb_lt. lia. Qed.

Lemma Z_ltb_asym (x y : Z) : Z.ltb x y = true -> Z.ltb y x = false.
Proof. rewrite Z.ltb_lt, Z.ltb_ge. lia. Qed.

Lemma best_epochs_entries_witness :
  length (get_k_best_epoch_metrics Z.ltb Z.add 0%Z sample_history 2) = 2
  /\ get_k_best_genome_ids Z.ltb Z.add 0%Z sample_history 2 = [2; 3]
  /\ NoDup (get_k_best_genome_ids Z.ltb Z.add 0%Z sample_history 2).
Proof.
  destruct (best_epochs_entries Z.ltb Z.add 0%Z sample_history 2)
    as (L & _ & N).
  split; [exact L|]. split; [reflexivity | exact N].
Defined.

Lemma Z_comparable (h : list (history_row Z)) : comparable_metrics Z.ltb h.
Proof.
  intros x y z _ _ _. rewrite !Z.ltb_lt. lia.
Qed.

(** A NaN between two ordered metrics is what comparability rules out. *)
Lemma nan_history_not_comparable :
  ~ comparable_metrics lt_nan sample_history_nan.
Proof.
  intros C.
  assert (L : forall m, In m [Some 3%Z; None; Some 1%Z] ->
                        logged sample_history_nan m).
  { intros m I.
    exists {| reference_metric := Some m; f_expressivity := Some 0%Z;
              f_input_restoration := Some 0%Z;
              f_weight_distribution := Some 0%Z |}.
    split; [|reflexivity]. unfold sample_history_nan.
    apply (in_map (fun m => {| reference_metric := Some m;
                               f_expressivity := Some 0%Z;
                               f_input_restoration := Some 0%Z;
                               f_weight_distribution := Some 0%Z |})).
    exact I. }
  destruct (C (Some 1%Z) None (Some 3%Z)) as [H|H];
    try discriminate H; try reflexivity; apply L; simpl; auto.
Qed.

Lemma best_epochs_are_best_witness :
  (forall x y z : Z, Z.ltb x y = true -> Z.ltb y z = true ->
                     Z.ltb x z = true)
  /\ (forall x y : Z, Z.ltb x y = true -> Z.ltb y x = false)
  /\ comparable_metrics Z.ltb sample_history
  /\ map (fun d => epoch_i (fst d))
         (get_k_best_epoch_metrics Z.ltb Z.add 0%Z sample_history 2)
     = [2; 3]
  /\ StronglySorted
       (fun a b =>
          Z.ltb (epoch_metric (fst a)) (epoch_metric (fst b)) = false
          /\ (Z.ltb (epoch_metric (fst b)) (epoch_metric (fst a)) = false ->
              epoch_i (fst b) < epoch_i (fst a)))
       (get_k_best_epoch_metrics Z.ltb Z.add 0%Z sample_history 2)
  /\ forall j row v e total,
       nth_error sample_history j = Some row ->
       reference_metric row = Some v ->
       ~ In j (get_k_best_genome_ids Z.ltb Z.add 0%Z sample_history 2) ->
       In (e, total)
          (get_k_best_epoch_metrics Z.ltb Z.add 0%Z sample_history 2) ->
       Z.ltb (epoch_metric e) v = false.
Proof.
  split; [exact Z_ltb_trans|]. split; [exact Z_ltb_asym|].
  split; [exact (@Z_comparable sample_history)|].
  split; [reflexivity|].
  exact (@best_epochs_are_best Z Z.ltb Z.add 0%Z Z_ltb_trans Z_ltb_asym
           sample_history 2 (@Z_comparable sample_history)).
Defined.
